(** * FLOW-SEU-G: reward plotting and experiment set-up

    A shallow embedding of the two scripts of the repository:

    - [plot_reward.py] reads [progress.csv] logs with pandas, draws reward
      curves with matplotlib and saves them as PNG files;
    - [cavandlight_shixiong.py] assembles the configuration of a two-role
      (cav / tl) multi-agent PPO run and hands it to [ray.tune].

    Python [str] values are embedded as [string] (UTF-8 bytes).  The two
    string tests the scripts use, [startswith] and [in], take ASCII needles
    only, and UTF-8 is self-synchronising, so the byte-level tests agree
    with Python's code-point-level ones. *)

From Stdlib Require Import ZArith QArith.
From stdpp Require Import gmap strings list fin_maps pretty.
Close Scope Q_scope.

(* stdpp's solvers clear hypotheses that may already be gone. *)
#[local] Set Warnings "-clear-no-such-hyp".

(** ** Python string primitives *)

Module Py.

(** [s.startswith(p)] *)
Fixpoint startswith (s p : string) {struct p} : bool :=
  match p with
  | EmptyString => true
  | String a p' =>
      match s with
      | EmptyString => false
      | String b s' => if decide (a = b) then startswith s' p' else false
      end
  end.

(** [needle in s]: the needle occurs at some offset of [s]. *)
Fixpoint contains (needle s : string) : bool :=
  startswith s needle ||
  match s with
  | EmptyString => false
  | String _ s' => contains needle s'
  end.

(** The byte [c] does not occur in [pre]. *)
Fixpoint avoids (c : Ascii.ascii) (pre : string) : bool :=
  match pre with
  | EmptyString => true
  | String b pre' => (if decide (c = b) then false else true) && avoids c pre'
  end.

End Py.

(** ** plot_reward.py *)

Module PlotReward.
Local Open Scope string_scope.

(** *** pandas: data frames read from CSV logs *)

(** A cell holds a number, or nothing (pandas' NaN) where the row is short. *)
Definition Cell : Type := option Q.
Definition Series : Type := list Cell.

(** A frame as [read_csv] builds it: the header row, then the data rows. *)
Record DataFrame := mkDataFrame {
  columns : list string;
  rows : list (list Cell)
}.

(** Position of the first header entry equal to [key]. *)
Fixpoint get_loc (key : string) (cols : list string) : option nat :=
  match cols with
  | [] => None
  | c :: cols' => if decide (c = key) then Some 0%nat else S <$> get_loc key cols'
  end.

(** The column named [key], when the header has it. *)
Definition column (df : DataFrame) (key : string) : option Series :=
  i ← get_loc key (columns df);
  Some ((λ row : list Cell, mjoin (row !! i)) <$> rows df).

(** *** matplotlib: figures *)

Record Figure := mkFigure {
  fig_lines : list (Series * Series * string);
  fig_xlabel : string;
  fig_ylabel : string;
  fig_grid : option string;
  fig_legend : option string
}.

Definition blank : Figure := mkFigure [] "" "" None None.

(** *** The world the script runs in *)

Inductive File :=
  | CsvFile (df : DataFrame)
  | PngFile (fig : Figure)
  | RawFile (bytes : string).

Inductive Exn :=
  | FileNotFoundError (path : string)
  | ParserError (path : string)
  | KeyError (key : string).

Inductive Event :=
  | EvShow
  | EvSave (path : string).

(** [files] is the file system; [figs] are pyplot's open figures by number
    and [gcf] the number of the newest one, which is pyplot's current
    figure because the script never re-activates an older figure;
    [events] is the history of [show] and [savefig] calls, oldest first. *)
Record World := mkWorld {
  files : gmap string File;
  figs : gmap nat Figure;
  gcf : nat;
  events : list Event
}.

(** Statements either finish with a value or raise; the world reached is
    kept in both cases, so that what was written before an exception stays
    written. *)
Definition M (A : Type) : Type := World → (Exn + A) * World.

#[global] Instance M_ret : MRet M := λ A x w, (inr x, w).
#[global] Instance M_bind : MBind M := λ A B f m w,
  match m w with
  | (inl e, w') => (inl e, w')
  | (inr a, w') => f a w'
  end.

Definition raise {A} (e : Exn) : M A := λ w, (inl e, w).

(** [pd.read_csv(path)] *)
Definition pd_read_csv (path : string) : M DataFrame := λ w,
  match files w !! path with
  | None => (inl (FileNotFoundError path), w)
  | Some (CsvFile df) => (inr df, w)
  | Some _ => (inl (ParserError path), w)
  end.

(** [df[key]] *)
Definition getitem (df : DataFrame) (key : string) : M Series :=
  match column df key with
  | Some s => mret s
  | None => raise (KeyError key)
  end.

(** [plt.figure(...)]: a new blank figure, which becomes the current one. *)
Definition plt_figure : M nat := λ w,
  let num := S (gcf w) in
  (inr num, mkWorld (files w) (<[num := blank]> (figs w)) num (events w)).

(** Drawing calls of [pyplot] act on the current figure. *)
Definition on_gcf (f : Figure → Figure) : M () := λ w,
  (inr (), mkWorld (files w) (alter f (gcf w) (figs w)) (gcf w) (events w)).

Definition plt_plot (x y : Series) (c : string) : M () :=
  on_gcf (λ g, mkFigure (fig_lines g ++ [(x, y, c)])%list (fig_xlabel g)
                        (fig_ylabel g) (fig_grid g) (fig_legend g)).
Definition plt_xlabel (s : string) : M () :=
  on_gcf (λ g, mkFigure (fig_lines g) s (fig_ylabel g) (fig_grid g) (fig_legend g)).
Definition plt_ylabel (s : string) : M () :=
  on_gcf (λ g, mkFigure (fig_lines g) (fig_xlabel g) s (fig_grid g) (fig_legend g)).
Definition plt_grid (color : string) : M () :=
  on_gcf (λ g, mkFigure (fig_lines g) (fig_xlabel g) (fig_ylabel g) (Some color)
                        (fig_legend g)).
(** No line carries a label, so the legend is empty; only its placement is
    recorded. *)
Definition plt_legend (loc : string) : M () :=
  on_gcf (λ g, mkFigure (fig_lines g) (fig_xlabel g) (fig_ylabel g) (fig_grid g)
                        (Some loc)).

Definition plt_show : M () := λ w,
  (inr (), mkWorld (files w) (figs w) (gcf w) (events w ++ [EvShow])%list).

(** [fig.savefig(path)]: creates or overwrites the file at [path]. *)
Definition savefig (fig : nat) (path : string) : M () := λ w,
  (inr (),
   mkWorld (<[path := PngFile (default blank (figs w !! fig))]> (files w))
           (figs w) (gcf w) (events w ++ [EvSave path])%list).

(** *** The three functions of the script *)

Definition PlotbothRew_Inter (PATH : string) : M () :=
  let first_PATH := PATH in
  let FILE_PATH := (first_PATH +:+ "/") +:+ "progress.csv" in
  let EXP_TAG := "fixed_time_ppo" in
  df ← pd_read_csv FILE_PATH;
  max_r ← getitem df "episode_reward_max";
  min_r ← getitem df "episode_reward_min";
  r ← getitem df "episode_reward_mean";
  iteration ← getitem df "training_iteration";
  fig ← plt_figure;
  plt_plot iteration r "b";;
  plt_xlabel "number of iterations";;
  plt_ylabel "reward";;
  plt_grid "y";;
  plt_legend "lower right";;
  plt_show;;
  savefig fig ((((first_PATH +:+ "/") +:+ "all_") +:+ EXP_TAG) +:+ ".png").

Definition PlotCav_LigthtRew_Inter (PATH : string) : M () :=
  let first_PATH := PATH in
  let FILE_PATH := (first_PATH +:+ "/") +:+ "progress.csv" in
  let EXP_TAG := "fixed_time_ppo" in
  df ← pd_read_csv FILE_PATH;
  max_r ← getitem df "episode_reward_max";
  min_r ← getitem df "episode_reward_min";
  r ← getitem df "episode_reward_mean";
  iteration ← getitem df "training_iteration";
  fig ← plt_figure;
  plt_plot iteration r "b";;
  plt_xlabel "number of iterations";;
  plt_ylabel "reward";;
  plt_grid "y";;
  plt_legend "lower right";;
  plt_show;;
  savefig fig ((((first_PATH +:+ "/") +:+ "all_") +:+ EXP_TAG) +:+ ".png");;
  max_r ← getitem df "policy_reward_max/cav";
  min_r ← getitem df "policy_reward_min/cav";
  r ← getitem df "policy_reward_mean/cav";
  iteration ← getitem df "training_iteration";
  fig ← plt_figure;
  plt_plot iteration r "b";;
  plt_xlabel "number of iterations";;
  plt_ylabel "icv_reward";;
  plt_grid "y";;
  plt_legend "lower right";;
  plt_show;;
  savefig fig ((((first_PATH +:+ "/") +:+ "icv_") +:+ EXP_TAG) +:+ ".png");;
  max_r ← getitem df "policy_reward_max/tl";
  min_r ← getitem df "policy_reward_min/tl";
  r ← getitem df "policy_reward_mean/tl";
  iteration ← getitem df "training_iteration";
  fig ← plt_figure;
  plt_plot iteration r "b";;
  plt_xlabel "number of iterations";;
  plt_ylabel "tl_reward";;
  plt_grid "y";;
  plt_legend "lower right";;
  plt_show;;
  savefig fig ((((first_PATH +:+ "/") +:+ "tl_") +:+ EXP_TAG) +:+ ".png").

Definition data_root : string :=
  "/home/g/software/pycharm/projects/flow-SEU/workplace/final/".

Definition PlotAll (PATH : string) : M () :=
  let dataPath := data_root +:+ PATH in
  if Py.contains "PO" dataPath then
    PlotbothRew_Inter dataPath;;
    PlotCav_LigthtRew_Inter dataPath
  else
    PlotbothRew_Inter dataPath.

(** *** The batch driver at module level *)

Definition PATHS : list string :=
  ["1*1路网/Co_PPO"; "1*1路网/fixedtime_cav"; "1*1路网/In_PPO"; "1*1路网/RL_HV";
   "1*6路网/Co_PPO"; "1*6路网/fixedtime_cav"; "1*6路网/In_PPO"; "1*6路网/RL_HV";
   "3*4路网/Co_PPO"; "3*4路网/fixedtime_cav"; "3*4路网/In_PPO"; "3*4路网/RL_HV"].

(** [for x in xs: body(x)] *)
Fixpoint for_in {A} (xs : list A) (body : A → M ()) : M () :=
  match xs with
  | [] => mret ()
  | x :: xs' => body x;; for_in xs' body
  end.

Definition main : M () := for_in PATHS PlotAll.

(** The paths handed to [savefig] so far, oldest first. *)
Definition saved (w : World) : list string :=
  omap (λ e, match e with EvSave p => Some p | EvShow => None end) (events w).

(** *** Reference behaviour

    Pure descriptions of what the functions above do, against which they
    are checked below. *)

(** The column names in the order the script selects them. *)
Definition episode_columns : list string :=
  ["episode_reward_max"; "episode_reward_min"; "episode_reward_mean";
   "training_iteration"].
Definition cav_columns : list string :=
  ["policy_reward_max/cav"; "policy_reward_min/cav"; "policy_reward_mean/cav";
   "training_iteration"].
Definition tl_columns : list string :=
  ["policy_reward_max/tl"; "policy_reward_min/tl"; "policy_reward_mean/tl";
   "training_iteration"].

(** The first of [keys] the frame has no column for. *)
Fixpoint first_missing (df : DataFrame) (keys : list string) : option string :=
  match keys with
  | [] => None
  | k :: keys' =>
      match column df k with
      | Some _ => first_missing df keys'
      | None => Some k
      end
  end.

Definition col (df : DataFrame) (key : string) : Series :=
  default [] (column df key).

(** One blue reward curve over the iteration number. *)
Definition reward_figure (df : DataFrame) (key ylabel : string) : Figure :=
  mkFigure [(col df "training_iteration", col df key, "b")]
           "number of iterations" ylabel (Some "y") (Some "lower right").

(** The world after a figure was opened, drawn, shown and saved at [path]. *)
Definition drawn (path : string) (fig : Figure) (w : World) : World :=
  mkWorld (<[path := PngFile fig]> (files w))
          (<[S (gcf w) := fig]> (figs w))
          (S (gcf w))
          (events w ++ [EvShow; EvSave path])%list.

Definition log_of (dir : string) : string := dir +:+ "/progress.csv".
Definition all_png (dir : string) : string := dir +:+ "/all_fixed_time_ppo.png".
Definition icv_png (dir : string) : string := dir +:+ "/icv_fixed_time_ppo.png".
Definition tl_png (dir : string) : string := dir +:+ "/tl_fixed_time_ppo.png".

(** [PlotbothRew_Inter dir] on a world. *)
Definition both_outcome (dir : string) (w : World) : (Exn + ()) * World :=
  match files w !! log_of dir with
  | None => (inl (FileNotFoundError (log_of dir)), w)
  | Some (CsvFile df) =>
      match first_missing df episode_columns with
      | Some k => (inl (KeyError k), w)
      | None => (inr (), drawn (all_png dir) (reward_figure df "episode_reward_mean" "reward") w)
      end
  | Some _ => (inl (ParserError (log_of dir)), w)
  end.

(** [PlotCav_LigthtRew_Inter dir] on a world. *)
Definition cav_light_outcome (dir : string) (w : World) : (Exn + ()) * World :=
  match files w !! log_of dir with
  | None => (inl (FileNotFoundError (log_of dir)), w)
  | Some (CsvFile df) =>
      match first_missing df episode_columns with
      | Some k => (inl (KeyError k), w)
      | None =>
          let w1 := drawn (all_png dir) (reward_figure df "episode_reward_mean" "reward") w in
          match first_missing df cav_columns with
          | Some k => (inl (KeyError k), w1)
          | None =>
              let w2 := drawn (icv_png dir)
                          (reward_figure df "policy_reward_mean/cav" "icv_reward") w1 in
              match first_missing df tl_columns with
              | Some k => (inl (KeyError k), w2)
              | None =>
                  (inr (), drawn (tl_png dir)
                             (reward_figure df "policy_reward_mean/tl" "tl_reward") w2)
              end
          end
      end
  | Some _ => (inl (ParserError (log_of dir)), w)
  end.

(** The columns [PlotAll] selects for a data directory, in order (the
    per-role function selects the episode columns a second time, which
    cannot fail once the first selection went through). *)
Definition consumed_columns (dataPath : string) : list string :=
  if Py.contains "PO" dataPath
  then (episode_columns ++ cav_columns ++ tl_columns)%list
  else episode_columns.

(** The log of the end-to-end scenario: three iterations with mean rewards
    0.1, 0.2, 0.3; the minima and maxima are left open. *)
Definition scenario_log (mins maxs : list Cell) : DataFrame :=
  mkDataFrame
    ["training_iteration"; "episode_reward_mean"; "episode_reward_min";
     "episode_reward_max"]
    [[Some 1%Q; Some (1 # 10)%Q; mjoin (mins !! 0%nat); mjoin (maxs !! 0%nat)];
     [Some 2%Q; Some (2 # 10)%Q; mjoin (mins !! 1%nat); mjoin (maxs !! 1%nat)];
     [Some 3%Q; Some (3 # 10)%Q; mjoin (mins !! 2%nat); mjoin (maxs !! 2%nat)]].

(** A two-iteration log of a multi-policy run, with all ten columns, and a
    world holding nothing but the given files. *)
Definition full_log : DataFrame :=
  mkDataFrame
    ["training_iteration"; "episode_reward_mean"; "episode_reward_min";
     "episode_reward_max"; "policy_reward_mean/cav"; "policy_reward_min/cav";
     "policy_reward_max/cav"; "policy_reward_mean/tl"; "policy_reward_min/tl";
     "policy_reward_max/tl"]
    [[Some 1%Q; Some (-12)%Q; Some (-20)%Q; Some (-5)%Q; Some (-4)%Q; Some (-9)%Q;
      Some (-1)%Q; Some (-8)%Q; Some (-11)%Q; Some (-4)%Q];
     [Some 2%Q; Some (-10)%Q; Some (-18)%Q; Some (-4)%Q; Some (-3)%Q; Some (-8)%Q;
      Some (-1)%Q; Some (-7)%Q; Some (-10)%Q; Some (-3)%Q]].

Definition disk (entries : list (string * File)) : World :=
  mkWorld (list_to_map entries) ∅ 0 [].

(** Two of the batch's data directories, one with the marker and one
    without, and worlds where the first, or each, holds a log. *)
Definition co_ppo_dir : string := data_root +:+ "1*1路网/Co_PPO".
Definition rl_hv_dir : string := data_root +:+ "1*1路网/RL_HV".

Definition co_ppo_world : World :=
  disk [(co_ppo_dir +:+ "/progress.csv", CsvFile full_log)].

Definition rl_hv_world : World :=
  disk [(rl_hv_dir +:+ "/progress.csv",
         CsvFile (scenario_log [Some (0 # 1)%Q; Some (1 # 10)%Q; Some (1 # 10)%Q]
                               [Some (2 # 10)%Q; Some (3 # 10)%Q; Some (5 # 10)%Q]))].

(** The [savefig] calls [PlotAll] makes for a relative path when nothing
    raises, in order. *)
Definition saves_of (PATH : string) : list string :=
  let dir := data_root +:+ PATH in
  if Py.contains "PO" dir
  then [all_png dir; all_png dir; icv_png dir; tl_png dir]
  else [all_png dir].

(** Several figures drawn and saved one after the other. *)
Definition draw_all (steps : list (string * Figure)) (w : World) : World :=
  foldl (λ w' step, drawn step.1 step.2 w') w steps.

(** The log of the relative path is there and has every column [PlotAll]
    selects for it. *)
Definition complete_log (w : World) (PATH : string) : bool :=
  match files w !! log_of (data_root +:+ PATH) with
  | Some (CsvFile df) =>
      bool_decide (first_missing df (consumed_columns (data_root +:+ PATH)) = None)
  | _ => false
  end.

(** A world where each directory of the batch holds a full log. *)
Definition batch_world : World :=
  disk ((λ PATH, (log_of (data_root +:+ PATH), CsvFile full_log)) <$> PATHS).

(** A log of a multi-policy run that lost its traffic-light columns. *)
Definition no_tl_log : DataFrame :=
  mkDataFrame
    ["training_iteration"; "episode_reward_mean"; "episode_reward_min";
     "episode_reward_max"; "policy_reward_mean/cav"; "policy_reward_min/cav";
     "policy_reward_max/cav"]
    [[Some 1%Q; Some (-12)%Q; Some (-20)%Q; Some (-5)%Q; Some (-4)%Q; Some (-9)%Q;
      Some (-1)%Q]].

End PlotReward.

(** ** cavandlight_shixiong.py *)

Module CavAndLight.
Local Open Scope string_scope.
Local Open Scope Z_scope.

Definition HORIZON : Z := 500.
Definition N_ROLLOUTS : Z := 1.
Definition USE_INFLOWS : bool := true.
Definition v_enter : Z := 10.
Definition inner_length : Z := 500.
Definition long_length : Z := 700.
Definition short_length : Z := 500.
Definition num_cars_left : Z := 1.
Definition num_cars_right : Z := 1.
Definition num_cars_top : Z := 1.
Definition num_cars_bot : Z := 1.
Definition n_columns : Z := 4.
Definition n_rows : Z := 3.

(** *** The vehicle population *)

(** The expression bound to [tot_cars], as a function of the module
    constants it reads. *)
Definition tot_cars_of (cars_left cars_right cars_top cars_bot cols rows : Z) : Z :=
  (cars_left + cars_right) * cols + (cars_top + cars_bot) * rows.

Definition tot_cars : Z :=
  tot_cars_of num_cars_left num_cars_right num_cars_top num_cars_bot
              n_columns n_rows.

Inductive Controller := GridRecycleRouter | ExpTravelTimeRouter | RLController.

#[global] Instance Controller_eq_dec : EqDecision Controller.
Proof. solve_decision. Defined.

Record SumoCarFollowingParams := mkCarFollowing {
  min_gap : Q; max_speed : Z; decel : Q
}.

(** The keyword arguments of one [VehicleParams.add] call; [None] where the
    script leaves the keyword out. *)
Record VehicleType := mkVehicleType {
  veh_id : string;
  acceleration_controller : option Controller;
  routing_controller : option Controller;
  car_following_params : option SumoCarFollowingParams;
  num_vehicles : Z;
  color : string;
  lane_change_mode : option string
}.

(** [VehicleParams()] and its [add]: the types in the order they were added. *)
Definition VehicleParams : Type := list VehicleType.
Definition add (v : VehicleType) (vs : VehicleParams) : VehicleParams :=
  (vs ++ [v])%list.

Definition vehs_of (tot : Z) : VehicleParams :=
  add (mkVehicleType "cav" (Some RLController) (Some ExpTravelTimeRouter) None
                     2 "red" (Some "only_strategic_aggressive"))
 (add (mkVehicleType "human" None (Some GridRecycleRouter)
                     (Some (mkCarFollowing (5 # 2) 30 (7 # 2)))
                     (tot - 2) "white" None)
      []).

Definition vehs : VehicleParams := vehs_of tot_cars.

(** How many vehicles the population holds under the identifier [id]. *)
Definition count_id (id : string) (vs : VehicleParams) : Z :=
  foldr (λ v acc, if decide (veh_id v = id) then num_vehicles v + acc else acc) 0 vs.

(** How many vehicles are driven by the learning controller. *)
Definition count_rl (vs : VehicleParams) : Z :=
  foldr (λ v acc, if decide (acceleration_controller v = Some RLController)
                  then num_vehicles v + acc else acc) 0 vs.

(** *** Configuration values *)

Inductive Space :=
  | Box (low high : Q) (shape : list nat)
  | Discrete (n : nat).

(** The four attributes [setup_exps] reads from the probe environment. *)
Record Env := mkEnv {
  observation_space_tl : Space;
  action_space_tl : Space;
  observation_space_av : Space;
  action_space_av : Space
}.

Inductive PolicyClass := PPOTFPolicy.

Inductive Scalar :=
  | VInt (n : Z)
  | VFloat (q : Q)
  | VBool (b : bool)
  | VStr (s : string)
  | VInts (l : list Z)
  | VStrs (l : list string).

(** [(policy class, observation space, action space, overrides)] *)
Definition PolicySpec : Type := PolicyClass * Space * Space * gmap string Scalar.

Inductive Value :=
  | Val (s : Scalar)
  | Policies (p : gmap string PolicySpec)
  | Fn (f : string → string).

(** A top-level entry of the trainer configuration: a plain value or a
    nested dictionary. *)
Inductive Entry :=
  | Leaf (v : Value)
  | Dict (d : gmap string Value).

(** [config[key].update(d)]: fails when [config] has no dictionary at [key]. *)
Definition update_in (key : string) (d : gmap string Value)
    (config : gmap string Entry) : option (gmap string Entry) :=
  match config !! key with
  | Some (Dict m) => Some (<[key := Dict (d ∪ m)]> config)
  | _ => None
  end.

(** [config[key][k] = v] *)
Definition setitem_in (key k : string) (v : Value)
    (config : gmap string Entry) : option (gmap string Entry) :=
  update_in key {[k := v]} config.

(** *** setup_exps *)

(** The lambda bound to [POLICY_MAPPING_FN]; it has no free variable. *)
Definition POLICY_MAPPING_FN : string → string :=
  λ agent_id, if Py.startswith agent_id "cav" then "cav" else "tl".

(** [default_config] is the trainer's [_default_config], [flow_json] the
    serialised flow parameters, and [create_env], [gym_name] what
    [make_create_env] returned: all four come from outside the script. *)
Definition setup_exps (default_config : gmap string Entry) (flow_json : string)
    (create_env : () → Env) (gym_name : string)
    : option (string * string * gmap string Entry) :=
  let alg_run := "PPO" in
  let config := default_config in
  let config := <["num_gpus" := Leaf (Val (VInt 1))]> config in
  let config := <["num_workers" := Leaf (Val (VInt 10))]> config in
  let config := <["train_batch_size" := Leaf (Val (VInt (HORIZON * N_ROLLOUTS)))]> config in
  let config := <["gamma" := Leaf (Val (VFloat (999 # 1000)))]> config in
  config ← update_in "model" {["fcnet_hiddens" := Val (VInts [3; 3])]} config;
  let config := <["use_gae" := Leaf (Val (VBool true))]> config in
  let config := <["lambda" := Leaf (Val (VFloat (97 # 100)))]> config in
  let config := <["kl_target" := Leaf (Val (VFloat (2 # 100)))]> config in
  let config := <["num_sgd_iter" := Leaf (Val (VInt 10))]> config in
  let config := <["clip_actions" := Leaf (Val (VBool false))]> config in
  let config := <["horizon" := Leaf (Val (VInt HORIZON))]> config in
  config ← setitem_in "env_config" "flow_params" (Val (VStr flow_json)) config;
  config ← setitem_in "env_config" "run" (Val (VStr alg_run)) config;
  let test_env := create_env () in
  let obs_space_tl := observation_space_tl test_env in
  let act_space_tl := action_space_tl test_env in
  let obs_space_av := observation_space_av test_env in
  let act_space_av := action_space_av test_env in
  let POLICY_GRAPHS : gmap string PolicySpec :=
    <["cav" := (PPOTFPolicy, obs_space_av, act_space_av, ∅)]>
      (<["tl" := (PPOTFPolicy, obs_space_tl, act_space_tl, ∅)]> ∅) in
  let POLICY_TO_TRAIN := ["cav"; "tl"] in
  config ← update_in "multiagent" {["policies" := Policies POLICY_GRAPHS]} config;
  config ← update_in "multiagent" {["policy_mapping_fn" := Fn POLICY_MAPPING_FN]} config;
  config ← update_in "multiagent" {["policies_to_train" := Val (VStrs POLICY_TO_TRAIN)]} config;
  Some (alg_run, gym_name, config).

(** *** The launch at module level *)

(** ["grid_0_{}x{}_multiagent".format(n_rows, n_columns)] *)
Definition exp_tag : string :=
  "grid_0_" +:+ pretty n_rows +:+ "x" +:+ pretty n_columns +:+ "_multiagent".

Record Trial := mkTrial {
  run : string;
  env : string;
  config : gmap string Entry;
  checkpoint_freq : Z;
  checkpoint_at_end : bool;
  max_failures : Z;
  stop : gmap string Z
}.

(** The dictionary passed to [run_experiments]. *)
Definition experiments (alg_run gym_name : string) (config : gmap string Entry)
    : gmap string Trial :=
  {[ exp_tag := mkTrial alg_run gym_name config 20 true 999
                        {[ "training_iteration" := 1000 ]} ]}.

(** The module body from [setup_exps()] on: what reaches [run_experiments]. *)
Definition launch (default_config : gmap string Entry) (flow_json : string)
    (create_env : () → Env) (gym_name : string) : option (gmap string Trial) :=
  '(alg_run, gym_name, config) ← setup_exps default_config flow_json create_env gym_name;
  Some (experiments alg_run gym_name config).

(** *** Inputs from outside the script *)

(** The trainer defaults hold the three nested dictionaries [setup_exps]
    updates in place. *)
Definition nests_dicts (default_config : gmap string Entry) : bool :=
  match default_config !! "model", default_config !! "env_config",
        default_config !! "multiagent" with
  | Some (Dict _), Some (Dict _), Some (Dict _) => true
  | _, _, _ => false
  end.

(** What [setup_exps] leaves under ["multiagent"], over the defaults [ma]. *)
Definition multiagent_of (test_env : Env) (ma : gmap string Value) : gmap string Value :=
  <["policies_to_train" := Val (VStrs ["cav"; "tl"])]>
    (<["policy_mapping_fn" := Fn POLICY_MAPPING_FN]>
      (<["policies" := Policies
            (<["cav" := (PPOTFPolicy, observation_space_av test_env,
                         action_space_av test_env, ∅)]>
              (<["tl" := (PPOTFPolicy, observation_space_tl test_env,
                          action_space_tl test_env, ∅)]> ∅))]> ma)).

(** A cut-down set of trainer defaults and a probe environment with four
    different spaces, to run the script on. *)
Definition small_defaults : gmap string Entry :=
  <["model" := Dict {["fcnet_hiddens" := Val (VInts [256; 256])]}]>
    (<["env_config" := Dict ∅]>
      (<["multiagent" := Dict (<["policies" := Policies ∅]>
                                (<["policies_to_train" := Val (VStrs [])]> ∅))]>
        (<["num_workers" := Leaf (Val (VInt 2))]> ∅))).

Definition small_env : Env :=
  mkEnv (Box 0 1 [12%nat]) (Discrete 2) (Box 0 1 [9%nat]) (Box (-3) 3 [1%nat]).

(** The top-level keys [setup_exps] assigns or updates in place. *)
Definition written_keys : list string :=
  ["num_gpus"; "num_workers"; "train_batch_size"; "gamma"; "model"; "use_gae";
   "lambda"; "kl_target"; "num_sgd_iter"; "clip_actions"; "horizon";
   "env_config"; "multiagent"].

End CavAndLight.

(** * Properties *)

(** ** Strings *)

Section strings.
Local Open Scope string_scope.

Lemma append_cons a (s t : string) : String a s +:+ t = String a (s +:+ t).
Proof. reflexivity. Qed.

Lemma append_nil_l (t : string) : "" +:+ t = t.
Proof. reflexivity. Qed.

Lemma append_assoc (s t u : string) : (s +:+ t) +:+ u = s +:+ (t +:+ u).
Proof.
  induction s as [|a s IH]; [done|].
  rewrite !append_cons. by f_equal.
Qed.

(** [startswith] is Python's prefix test: the rest of the string is free. *)
Lemma startswith_spec (s p : string) :
  Py.startswith s p = true ↔ ∃ rest, s = p +:+ rest.
Proof.
  revert s. induction p as [|a p IH]; intros s; simpl.
  - split; [intros _; by exists s | done].
  - destruct s as [|b s].
    + split; [done | intros [rest Hr]; by rewrite append_cons in Hr].
    + case_decide as Hab.
      * subst b. rewrite IH. split; intros [rest Hr]; exists rest.
        -- rewrite append_cons. by f_equal.
        -- rewrite append_cons in Hr. by injection Hr.
      * split; [done | intros [rest Hr]].
        rewrite append_cons in Hr. injection Hr as -> _. done.
Qed.

(** [contains] is Python's [in]: the needle sits between two free parts. *)
Lemma contains_spec (needle s : string) :
  Py.contains needle s = true ↔ ∃ pre post, s = pre +:+ (needle +:+ post).
Proof.
  induction s as [|b s IH].
  - simpl. rewrite orb_false_r, startswith_spec. split.
    + intros [rest Hr]. by exists "", rest.
    + intros (pre & post & Hs). destruct pre; [by exists post | done].
  - change (Py.contains needle (String b s))
      with (Py.startswith (String b s) needle || Py.contains needle s).
    rewrite orb_true_iff, startswith_spec, IH. split.
    + intros [[rest Hr] | (pre & post & Hs)].
      * by exists "", rest.
      * exists (String b pre), post. rewrite append_cons. by f_equal.
    + intros (pre & post & Hs). destruct pre as [|c pre].
      * left. by exists post.
      * right. rewrite append_cons in Hs. injection Hs as _ Hs. by exists pre, post.
Qed.

(** A prefix that never shows the needle's first byte cannot hold the
    needle, nor its beginning: the test only sees what follows. *)
Lemma contains_skip c needle pre s :
  Py.avoids c pre = true →
  Py.contains (String c needle) (pre +:+ s) = Py.contains (String c needle) s.
Proof.
  induction pre as [|b pre IH]; [done|].
  simpl Py.avoids. intros [Hb Hpre]%andb_true_iff.
  rewrite append_cons.
  change (Py.contains (String c needle) (String b (pre +:+ s)))
    with (Py.startswith (String b (pre +:+ s)) (String c needle)
          || Py.contains (String c needle) (pre +:+ s)).
  rewrite IH by done. simpl Py.startswith.
  by case_decide.
Qed.

End strings.

(** ** The experiment configurator *)

Section configurator.
Import CavAndLight.
Local Open Scope string_scope.
Local Open Scope Z_scope.

Lemma update_in_Some key d config m :
  config !! key = Some (Dict m) →
  update_in key d config = Some (<[key := Dict (d ∪ m)]> config).
Proof. intros H. unfold update_in. by rewrite H. Qed.

Lemma singleton_union {V} (k : string) (v : V) (m : gmap string V) :
  {[k := v]} ∪ m = <[k := v]> m.
Proof. by rewrite insert_union_singleton_l. Qed.

(** [setup_exps] succeeds on such defaults, names the algorithm ["PPO"],
    passes the environment name through, and rewrites ["multiagent"] as
    [multiagent_of] says. *)
Lemma setup_exps_multiagent default_config flow_json create_env gym_name :
  nests_dicts default_config = true →
  ∃ config ma,
    setup_exps default_config flow_json create_env gym_name
      = Some ("PPO", gym_name, config)
    ∧ default_config !! "multiagent" = Some (Dict ma)
    ∧ config !! "multiagent" = Some (Dict (multiagent_of (create_env ()) ma)).
Proof.
  unfold nests_dicts. intros H.
  destruct (default_config !! "model") as [[|m]|] eqn:Hm; try done.
  destruct (default_config !! "env_config") as [[|e]|] eqn:He; try done.
  destruct (default_config !! "multiagent") as [[|ma]|] eqn:Hma; try done.
  unfold setup_exps, setitem_in.
  erewrite update_in_Some; [|by simplify_map_eq].
  simpl.
  erewrite update_in_Some; [|by simplify_map_eq].
  simpl.
  erewrite update_in_Some; [|by simplify_map_eq].
  simpl.
  erewrite update_in_Some; [|by simplify_map_eq].
  simpl.
  erewrite update_in_Some; [|by simplify_map_eq].
  simpl.
  erewrite update_in_Some; [|by simplify_map_eq].
  simpl.
  eexists _, ma. split; [reflexivity|]. split; [done|].
  rewrite lookup_insert_eq. unfold multiagent_of.
  by rewrite !singleton_union.
Qed.

End configurator.

Section configurator_claims.
Import CavAndLight.
Local Open Scope string_scope.
Local Open Scope Z_scope.

(** C1. The policy-mapping function that [setup_exps] registers under
    ["multiagent"]["policy_mapping_fn"] sends an agent identifier to ["cav"]
    exactly when the identifier starts with ["cav"], and to ["tl"] exactly
    when it does not; being a function on all strings it has an answer for
    every identifier and raises for none. *)
Theorem policy_mapping_fn_prefix_rule default_config flow_json create_env gym_name :
  nests_dicts default_config = true →
  ∃ alg_run name config ma f,
    setup_exps default_config flow_json create_env gym_name
      = Some (alg_run, name, config)
    ∧ config !! "multiagent" = Some (Dict ma)
    ∧ ma !! "policy_mapping_fn" = Some (Fn f)
    ∧ ∀ agent_id : string,
        (f agent_id = "cav" ↔ ∃ rest, agent_id = "cav" +:+ rest)
        ∧ (f agent_id = "tl" ↔ ¬ ∃ rest, agent_id = "cav" +:+ rest).
Proof.
  intros Hd.
  destruct (setup_exps_multiagent _ flow_json create_env gym_name Hd)
    as (config & ma & Hrun & _ & Hma).
  exists "PPO", gym_name, config, (multiagent_of (create_env ()) ma), POLICY_MAPPING_FN.
  split; [done|]. split; [done|]. split.
  { unfold multiagent_of. by simplify_map_eq. }
  intros agent_id. rewrite <- startswith_spec. unfold POLICY_MAPPING_FN.
  destruct (Py.startswith agent_id "cav"); split; split; done.
Qed.

Lemma policy_mapping_fn_prefix_rule_witness :
  nests_dicts small_defaults = true
  ∧ ∃ alg_run name config ma f,
      setup_exps small_defaults "{}" (λ _, small_env) "MultiEnv-v0"
        = Some (alg_run, name, config)
      ∧ config !! "multiagent" = Some (Dict ma)
      ∧ ma !! "policy_mapping_fn" = Some (Fn f)
      ∧ ∀ agent_id : string,
          (f agent_id = "cav" ↔ ∃ rest, agent_id = "cav" +:+ rest)
          ∧ (f agent_id = "tl" ↔ ¬ ∃ rest, agent_id = "cav" +:+ rest).
Proof.
  split; [reflexivity|].
  apply (policy_mapping_fn_prefix_rule small_defaults "{}" (λ _, small_env)
           "MultiEnv-v0").
  reflexivity.
Defined.

(** C3. Whatever the grid geometry, the population built by the script
    holds (tot_cars - 2) "human" vehicles and 2 "cav" vehicles: together
    they make up tot_cars, the "cav" vehicles are the only ones under the
    learning controller, and there is no third vehicle type.  With the
    script's constants tot_cars is 14. *)
Theorem vehs_population_invariant (cars_left cars_right cars_top cars_bot cols rows : Z) :
  let tot := tot_cars_of cars_left cars_right cars_top cars_bot cols rows in
  tot = (cars_left + cars_right) * cols + (cars_top + cars_bot) * rows
  ∧ count_id "human" (vehs_of tot) + count_id "cav" (vehs_of tot) = tot
  ∧ count_id "cav" (vehs_of tot) = 2
  ∧ count_rl (vehs_of tot) = 2
  ∧ veh_id <$> vehs_of tot = ["human"; "cav"]
  ∧ acceleration_controller <$> vehs_of tot = [None; Some RLController]
  ∧ vehs = vehs_of tot_cars
  ∧ tot_cars = tot_cars_of num_cars_left num_cars_right num_cars_top num_cars_bot
                           n_columns n_rows
  ∧ tot_cars = 14.
Proof.
  intros tot. unfold vehs_of, add, count_id, count_rl. simpl.
  repeat split; try done; lia.
Qed.

(** C6. The dictionary handed to [run_experiments] has one trial, keyed by
    the experiment tag; it stops on an iteration ceiling of 1000 and on
    nothing else, checkpoints every 20 iterations and once more at the
    end, and leaves up to 999 failures to the launcher. *)
Theorem launch_stop_checkpoint_failures default_config flow_json create_env gym_name :
  nests_dicts default_config = true →
  ∃ exps trial cfg,
    launch default_config flow_json create_env gym_name = Some exps
    ∧ setup_exps default_config flow_json create_env gym_name
        = Some ("PPO", gym_name, cfg)
    ∧ exps = {[ "grid_0_3x4_multiagent" := trial ]}
    ∧ run trial = "PPO" ∧ env trial = gym_name ∧ config trial = cfg
    ∧ stop trial = {[ "training_iteration" := 1000 ]}
    ∧ checkpoint_freq trial = 20
    ∧ checkpoint_at_end trial = true
    ∧ max_failures trial = 999.
Proof.
  intros Hd.
  destruct (setup_exps_multiagent _ flow_json create_env gym_name Hd)
    as (cfg & ma & Hrun & _ & _).
  unfold launch. rewrite Hrun. simpl.
  exists (experiments "PPO" gym_name cfg),
    (mkTrial "PPO" gym_name cfg 20 true 999 {[ "training_iteration" := 1000 ]}), cfg.
  split; [reflexivity|]. split; [done|].
  split; [|by repeat split].
  unfold experiments.
  by replace exp_tag with "grid_0_3x4_multiagent" by (by vm_compute).
Qed.

Lemma launch_stop_checkpoint_failures_witness :
  nests_dicts small_defaults = true
  ∧ ∃ exps trial cfg,
      launch small_defaults "{}" (λ _, small_env) "MultiEnv-v0" = Some exps
      ∧ setup_exps small_defaults "{}" (λ _, small_env) "MultiEnv-v0"
          = Some ("PPO", "MultiEnv-v0", cfg)
      ∧ exps = {[ "grid_0_3x4_multiagent" := trial ]}
      ∧ run trial = "PPO" ∧ env trial = "MultiEnv-v0" ∧ config trial = cfg
      ∧ stop trial = {[ "training_iteration" := 1000 ]}
      ∧ checkpoint_freq trial = 20
      ∧ checkpoint_at_end trial = true
      ∧ max_failures trial = 999.
Proof.
  split; [reflexivity|].
  apply (launch_stop_checkpoint_failures small_defaults "{}" (λ _, small_env)
           "MultiEnv-v0").
  reflexivity.
Defined.

(** C7. [setup_exps] stores exactly two policy definitions, keyed "cav"
    and "tl": the "cav" one carries the probe environment's av observation
    and action spaces, the "tl" one its tl spaces; and the list of
    policies to train is those two keys and nothing more. *)
Theorem setup_exps_two_policies default_config flow_json create_env gym_name :
  nests_dicts default_config = true →
  ∃ alg_run name config ma P,
    setup_exps default_config flow_json create_env gym_name
      = Some (alg_run, name, config)
    ∧ config !! "multiagent" = Some (Dict ma)
    ∧ ma !! "policies" = Some (Policies P)
    ∧ dom P = ({["cav"; "tl"]} : gset string)
    ∧ size P = 2%nat
    ∧ P !! "cav" = Some (PPOTFPolicy, observation_space_av (create_env ()),
                         action_space_av (create_env ()), ∅)
    ∧ P !! "tl" = Some (PPOTFPolicy, observation_space_tl (create_env ()),
                        action_space_tl (create_env ()), ∅)
    ∧ ma !! "policies_to_train" = Some (Val (VStrs ["cav"; "tl"])).
Proof.
  intros Hd.
  destruct (setup_exps_multiagent _ flow_json create_env gym_name Hd)
    as (config & ma & Hrun & _ & Hma).
  exists "PPO", gym_name, config, (multiagent_of (create_env ()) ma).
  eexists. split; [done|]. split; [done|]. unfold multiagent_of.
  split; [by simplify_map_eq|].
  split; [rewrite !dom_insert_L, dom_empty_L; set_solver|].
  split.
  { rewrite !map_size_insert_None, map_size_empty; by simplify_map_eq. }
  repeat split; by simplify_map_eq.
Qed.

Lemma setup_exps_two_policies_witness :
  nests_dicts small_defaults = true
  ∧ ∃ alg_run name config ma P,
      setup_exps small_defaults "{}" (λ _, small_env) "MultiEnv-v0"
        = Some (alg_run, name, config)
      ∧ config !! "multiagent" = Some (Dict ma)
      ∧ ma !! "policies" = Some (Policies P)
      ∧ dom P = ({["cav"; "tl"]} : gset string)
      ∧ size P = 2%nat
      ∧ P !! "cav" = Some (PPOTFPolicy, observation_space_av small_env,
                           action_space_av small_env, ∅)
      ∧ P !! "tl" = Some (PPOTFPolicy, observation_space_tl small_env,
                          action_space_tl small_env, ∅)
      ∧ ma !! "policies_to_train" = Some (Val (VStrs ["cav"; "tl"])).
Proof.
  split; [reflexivity|].
  apply (setup_exps_two_policies small_defaults "{}" (λ _, small_env)
           "MultiEnv-v0").
  reflexivity.
Defined.

End configurator_claims.

(** ** The log plotter *)

Section plotter.
Import PlotReward.
Local Open Scope string_scope.

(** Paths are compared after the directory they share. *)
Ltac path_neq :=
  unfold log_of, all_png, icv_png, tl_png;
  let H := fresh in
  intros H; apply (inj (String.append _)) in H; discriminate H.

Lemma log_not_all dir : all_png dir ≠ log_of dir.
Proof. path_neq. Qed.
Lemma log_not_icv dir : icv_png dir ≠ log_of dir.
Proof. path_neq. Qed.
Lemma log_not_tl dir : tl_png dir ≠ log_of dir.
Proof. path_neq. Qed.
Lemma all_not_icv dir : all_png dir ≠ icv_png dir.
Proof. path_neq. Qed.
Lemma all_not_tl dir : all_png dir ≠ tl_png dir.
Proof. path_neq. Qed.
Lemma icv_not_tl dir : icv_png dir ≠ tl_png dir.
Proof. path_neq. Qed.

(** The script's left-nested concatenations, flattened. *)
Lemma log_path dir : (dir +:+ "/") +:+ "progress.csv" = log_of dir.
Proof. unfold log_of. by rewrite append_assoc. Qed.

Lemma png_path dir scope :
  (((dir +:+ "/") +:+ scope) +:+ "fixed_time_ppo") +:+ ".png"
  = dir +:+ ("/" +:+ (scope +:+ "fixed_time_ppo.png")).
Proof. rewrite !append_assoc. do 3 f_equal. Qed.

Lemma getitem_run df key w :
  getitem df key w =
    match column df key with
    | Some s => (inr s, w)
    | None => (inl (KeyError key), w)
    end.
Proof. unfold getitem. by destruct (column df key). Qed.

(** Opening a figure, drawing one curve on it, showing and saving it. *)
Lemma draw_run x y ylabel path (rest : M ()) w :
  (fig ← plt_figure;
   plt_plot x y "b";;
   plt_xlabel "number of iterations";;
   plt_ylabel ylabel;;
   plt_grid "y";;
   plt_legend "lower right";;
   plt_show;;
   savefig fig path;;
   rest) w
  = rest (drawn path
            (mkFigure [(x, y, "b")] "number of iterations" ylabel (Some "y")
                      (Some "lower right")) w).
Proof.
  unfold mbind, M_bind, plt_figure, plt_plot, plt_xlabel, plt_ylabel, plt_grid,
    plt_legend, plt_show, savefig, on_gcf, drawn. simpl.
  rewrite !alter_insert_eq, lookup_insert_eq. simpl.
  by rewrite <- app_assoc.
Qed.

Lemma draw_last x y ylabel path w :
  (fig ← plt_figure;
   plt_plot x y "b";;
   plt_xlabel "number of iterations";;
   plt_ylabel ylabel;;
   plt_grid "y";;
   plt_legend "lower right";;
   plt_show;;
   savefig fig path) w
  = (inr (), drawn path
               (mkFigure [(x, y, "b")] "number of iterations" ylabel (Some "y")
                         (Some "lower right")) w).
Proof.
  unfold mbind, M_bind, plt_figure, plt_plot, plt_xlabel, plt_ylabel, plt_grid,
    plt_legend, plt_show, savefig, on_gcf, drawn. simpl.
  rewrite !alter_insert_eq, lookup_insert_eq. simpl.
  by rewrite <- app_assoc.
Qed.

Lemma bind_getitem {B} df key (k : Series → M B) w :
  (s ← getitem df key; k s) w =
    match column df key with
    | Some s => k s w
    | None => (inl (KeyError key), w)
    end.
Proof.
  unfold mbind, M_bind. rewrite getitem_run. by destruct (column df key).
Qed.

Lemma bind_read_csv {B} path (k : DataFrame → M B) w :
  (df ← pd_read_csv path; k df) w =
    match files w !! path with
    | None => (inl (FileNotFoundError path), w)
    | Some (CsvFile df) => k df w
    | Some _ => (inl (ParserError path), w)
    end.
Proof.
  unfold mbind, M_bind, pd_read_csv. by destruct (files w !! path) as [[]|].
Qed.

(** Selecting the columns of [keys] one after the other, as the script
    does, stops at the first missing one. *)
Ltac select_columns df :=
  repeat (match goal with
          | |- (getitem ?d ?k ≫= ?f) ?w = _ => rewrite (bind_getitem d k f w)
          end;
          simpl first_missing;
          match goal with
          | H : column df ?k = Some _ |- context [column df ?k] => rewrite !H
          | |- context [column df ?k] =>
              let E := fresh "E" in
              destruct (column df k) eqn:E; [|reflexivity]
          end).

(** The next figure to draw is the one whose series are already selected. *)
Ltac draw_figure :=
  match goal with
  | |- context [plt_plot ?x ?y "b"] => rewrite (draw_run x y)
  end.

Lemma PlotbothRew_Inter_run dir w :
  PlotbothRew_Inter dir w = both_outcome dir w.
Proof.
  unfold PlotbothRew_Inter, both_outcome, episode_columns, reward_figure, col.
  rewrite log_path, png_path, bind_read_csv.
  destruct (files w !! log_of dir) as [[df| |]|]; try reflexivity.
  select_columns df. by rewrite draw_last.
Qed.

Lemma PlotCav_LigthtRew_Inter_run dir w :
  PlotCav_LigthtRew_Inter dir w = cav_light_outcome dir w.
Proof.
  unfold PlotCav_LigthtRew_Inter, cav_light_outcome, episode_columns,
    cav_columns, tl_columns, reward_figure, col.
  rewrite log_path, !png_path, bind_read_csv.
  destruct (files w !! log_of dir) as [[df| |]|]; try reflexivity.
  select_columns df. draw_figure.
  select_columns df. draw_figure.
  select_columns df. by rewrite draw_last.
Qed.

Lemma PlotAll_run PATH w :
  PlotAll PATH w =
    let dir := data_root +:+ PATH in
    if Py.contains "PO" dir then
      match both_outcome dir w with
      | (inl e, w') => (inl e, w')
      | (inr _, w') => cav_light_outcome dir w'
      end
    else both_outcome dir w.
Proof.
  unfold PlotAll. cbv zeta. destruct (Py.contains "PO" (data_root +:+ PATH)).
  - unfold mbind, M_bind. rewrite PlotbothRew_Inter_run.
    destruct (both_outcome _ w) as [[e|[]] w']; [done|].
    apply PlotCav_LigthtRew_Inter_run.
  - apply PlotbothRew_Inter_run.
Qed.

Lemma first_missing_app df ks1 ks2 :
  first_missing df (ks1 ++ ks2) =
    match first_missing df ks1 with
    | Some k => Some k
    | None => first_missing df ks2
    end.
Proof.
  induction ks1 as [|k ks1 IH]; [done|].
  simpl. by destruct (column df k).
Qed.

Lemma first_missing_elem df ks k : first_missing df ks = Some k → k ∈ ks.
Proof.
  induction ks as [|k' ks IH]; [done|]. simpl.
  destruct (column df k').
  - intros H. right. by apply IH.
  - intros [= ->]. left.
Qed.

Lemma get_loc_is_Some key cols : is_Some (get_loc key cols) ↔ key ∈ cols.
Proof.
  induction cols as [|c cols IH]; simpl.
  - split; [by intros [? ?] | by intros ?%elem_of_nil].
  - case_decide as Hc.
    + subst c. split; [intros _; left | by eexists].
    + rewrite fmap_is_Some, IH, elem_of_cons. split; [by right|].
      by intros [->|?].
Qed.

Lemma column_is_Some df key : is_Some (column df key) ↔ key ∈ columns df.
Proof.
  rewrite <- get_loc_is_Some. unfold column.
  destruct (get_loc key (columns df)); simpl; split; intros [? ?]; by eauto.
Qed.

(** No column is missing exactly when the header has every key. *)
Lemma first_missing_None df ks :
  first_missing df ks = None ↔ ∀ k, k ∈ ks → k ∈ columns df.
Proof.
  induction ks as [|k ks IH]; simpl.
  - split; [by intros _ ? ?%elem_of_nil | done].
  - destruct (column df k) as [s|] eqn:E.
    + rewrite IH. split.
      * intros H k' [->|?]%elem_of_cons; [|by apply H].
        apply column_is_Some. by eexists.
      * intros H k' Hk'. apply H. by right.
    + split; [done|]. intros H.
      assert (is_Some (column df k)) as [? ?]; [|congruence].
      apply column_is_Some, H. left.
Qed.

Lemma saved_drawn path fig w : saved (drawn path fig w) = (saved w ++ [path])%list.
Proof. unfold saved, drawn. simpl. by rewrite omap_app. Qed.

Lemma files_drawn path fig w :
  files (drawn path fig w) = <[path := PngFile fig]> (files w).
Proof. done. Qed.

(** On a directory without the marker whose log has the episode columns,
    [PlotAll] draws one figure. *)
Lemma PlotAll_plain PATH w df :
  Py.contains "PO" (data_root +:+ PATH) = false →
  files w !! log_of (data_root +:+ PATH) = Some (CsvFile df) →
  first_missing df episode_columns = None →
  PlotAll PATH w =
    (inr (), drawn (all_png (data_root +:+ PATH))
               (reward_figure df "episode_reward_mean" "reward") w).
Proof.
  intros Hpo Hlog Hcols. rewrite PlotAll_run. cbv zeta. rewrite Hpo.
  unfold both_outcome. by rewrite Hlog, Hcols.
Qed.

(** On a directory with the marker whose log has all ten columns,
    [PlotAll] draws the episode figure twice, then one figure per role. *)
Lemma PlotAll_marked PATH w df :
  let dir := data_root +:+ PATH in
  Py.contains "PO" dir = true →
  files w !! log_of dir = Some (CsvFile df) →
  first_missing df (episode_columns ++ cav_columns ++ tl_columns) = None →
  let w1 := drawn (all_png dir) (reward_figure df "episode_reward_mean" "reward") w in
  PlotbothRew_Inter dir w = (inr (), w1)
  ∧ PlotCav_LigthtRew_Inter dir w1 =
      (inr (), drawn (tl_png dir) (reward_figure df "policy_reward_mean/tl" "tl_reward")
                 (drawn (icv_png dir)
                    (reward_figure df "policy_reward_mean/cav" "icv_reward")
                    (drawn (all_png dir)
                       (reward_figure df "episode_reward_mean" "reward") w1)))
  ∧ PlotAll PATH w = PlotCav_LigthtRew_Inter dir w1.
Proof.
  intros dir Hpo Hlog Hcols w1.
  rewrite !first_missing_app in Hcols.
  destruct (first_missing df episode_columns) eqn:He; [done|].
  destruct (first_missing df cav_columns) eqn:Hc; [done|].
  assert (both_outcome dir w = (inr (), w1)) as Hboth.
  { unfold both_outcome. by rewrite Hlog, He. }
  assert (files w1 !! log_of dir = Some (CsvFile df)) as Hlog1.
  { unfold w1. rewrite files_drawn, lookup_insert_ne; [done|apply log_not_all]. }
  split; [by rewrite PlotbothRew_Inter_run|]. split.
  - rewrite PlotCav_LigthtRew_Inter_run. unfold cav_light_outcome.
    by rewrite Hlog1, He, Hc, Hcols.
  - rewrite PlotAll_run. cbv zeta. fold dir. rewrite Hpo, Hboth.
    by rewrite PlotCav_LigthtRew_Inter_run.
Qed.

End plotter.

Section plotter_claims.
Import PlotReward.
Local Open Scope string_scope.

Lemma for_in_app {A} (xs ys : list A) body w :
  for_in (xs ++ ys) body w = (for_in xs body;; for_in ys body) w.
Proof.
  revert w. induction xs as [|x xs IH]; intros w; [done|].
  simpl. unfold mbind, M_bind in *.
  destruct (body x w) as [[e|[]] w']; [done|]. apply IH.
Qed.

(** An exception in the loop body ends the loop: the world is left as the
    body left it, and what follows in the list is not looked at. *)
Lemma for_in_abort {A} (pre post : list A) x body w w1 e w2 :
  for_in pre body w = (inr (), w1) →
  body x w1 = (inl e, w2) →
  for_in (pre ++ x :: post) body w = (inl e, w2).
Proof.
  intros Hpre Hx. rewrite for_in_app. unfold mbind, M_bind.
  rewrite Hpre. simpl. unfold mbind, M_bind. by rewrite Hx.
Qed.

Lemma for_in_middle {A} (xs : list A) i x body w :
  xs !! i = Some x →
  for_in xs body w
  = (for_in (take i xs) body;; body x;; for_in (drop (S i) xs) body) w.
Proof.
  intros Hi. rewrite <- (take_drop_middle xs i x Hi) at 1.
  by rewrite for_in_app.
Qed.

Lemma marker_skips_root PATH :
  Py.contains "PO" (data_root +:+ PATH) = Py.contains "PO" PATH.
Proof. by apply contains_skip. Qed.

(** C2. [PlotAll] on a directory whose log holds the columns it selects
    finishes without an exception and changes the file system at image
    files only: when the data path contains the marker "PO", the files
    saved are exactly all_fixed_time_ppo.png, icv_fixed_time_ppo.png and
    tl_fixed_time_ppo.png, three different paths next to progress.csv;
    otherwise all_fixed_time_ppo.png alone is saved, once. *)
Theorem PlotAll_image_files PATH w df :
  let dir := data_root +:+ PATH in
  files w !! (dir +:+ "/progress.csv") = Some (CsvFile df) →
  first_missing df (consumed_columns dir) = None →
  ∃ w' new,
    PlotAll PATH w = (inr (), w')
    ∧ saved w' = (saved w ++ new)%list
    ∧ (∀ p, p ∉ new → files w' !! p = files w !! p)
    ∧ (∀ p, p ∈ new → ∃ fig, files w' !! p = Some (PngFile fig))
    ∧ if Py.contains "PO" dir
      then (∀ p, p ∈ new ↔ p ∈ [dir +:+ "/all_fixed_time_ppo.png";
                                dir +:+ "/icv_fixed_time_ppo.png";
                                dir +:+ "/tl_fixed_time_ppo.png"])
           ∧ NoDup [dir +:+ "/all_fixed_time_ppo.png";
                    dir +:+ "/icv_fixed_time_ppo.png";
                    dir +:+ "/tl_fixed_time_ppo.png"]
      else new = [dir +:+ "/all_fixed_time_ppo.png"].
Proof.
  intros dir Hlog Hcols. unfold consumed_columns in Hcols.
  change (dir +:+ "/all_fixed_time_ppo.png") with (all_png dir).
  change (dir +:+ "/icv_fixed_time_ppo.png") with (icv_png dir).
  change (dir +:+ "/tl_fixed_time_ppo.png") with (tl_png dir).
  destruct (Py.contains "PO" dir) eqn:Hpo.
  - destruct (PlotAll_marked PATH w df Hpo Hlog Hcols) as (_ & Hcav & Hall).
    fold dir in Hcav, Hall. rewrite Hcav in Hall.
    eexists _, [all_png dir; all_png dir; icv_png dir; tl_png dir].
    split; [exact Hall|]. split.
    { rewrite !saved_drawn, <- !app_assoc. done. }
    split.
    { intros p Hp. rewrite !files_drawn.
      rewrite !lookup_insert_ne; [done|..]; intros Heq; apply Hp;
        rewrite <- Heq; set_solver. }
    split.
    { intros p Hp. rewrite !files_drawn.
      pose proof (all_not_icv dir). pose proof (all_not_tl dir).
      pose proof (icv_not_tl dir).
      assert (p = all_png dir ∨ p = icv_png dir ∨ p = tl_png dir)
        as [-> | [-> | ->]] by set_solver; simplify_map_eq; by eexists. }
    split; [set_solver|].
    pose proof (all_not_icv dir). pose proof (all_not_tl dir).
    pose proof (icv_not_tl dir).
    repeat (apply NoDup_cons; split; [set_solver|]). apply NoDup_nil_2.
  - rewrite (PlotAll_plain PATH w df Hpo Hlog Hcols).
    eexists _, [all_png (data_root +:+ PATH)]. split; [done|].
    split; [by rewrite saved_drawn|]. split.
    { intros p Hp. rewrite files_drawn, lookup_insert_ne; [done|].
      intros Heq. apply Hp. rewrite <- Heq. set_solver. }
    split; [|done].
    intros p ->%list_elem_of_singleton. rewrite files_drawn, lookup_insert_eq.
    by eexists.
Qed.

Lemma PlotAll_image_files_witness :
  files co_ppo_world !! (co_ppo_dir +:+ "/progress.csv") = Some (CsvFile full_log)
  ∧ first_missing full_log (consumed_columns co_ppo_dir) = None
  ∧ ∃ w' new,
      PlotAll "1*1路网/Co_PPO" co_ppo_world = (inr (), w')
      ∧ saved w' = (saved co_ppo_world ++ new)%list
      ∧ (∀ p, p ∉ new → files w' !! p = files co_ppo_world !! p)
      ∧ (∀ p, p ∈ new → ∃ fig, files w' !! p = Some (PngFile fig))
      ∧ if Py.contains "PO" co_ppo_dir
        then (∀ p, p ∈ new ↔ p ∈ [co_ppo_dir +:+ "/all_fixed_time_ppo.png";
                                  co_ppo_dir +:+ "/icv_fixed_time_ppo.png";
                                  co_ppo_dir +:+ "/tl_fixed_time_ppo.png"])
             ∧ NoDup [co_ppo_dir +:+ "/all_fixed_time_ppo.png";
                      co_ppo_dir +:+ "/icv_fixed_time_ppo.png";
                      co_ppo_dir +:+ "/tl_fixed_time_ppo.png"]
        else new = [co_ppo_dir +:+ "/all_fixed_time_ppo.png"].
Proof.
  split; [vm_compute; reflexivity|]. split; [vm_compute; reflexivity|].
  apply (PlotAll_image_files "1*1路网/Co_PPO" co_ppo_world full_log);
    vm_compute; reflexivity.
Defined.

(** C10. On a directory whose data path contains the marker, [PlotAll]
    saves four times: [PlotbothRew_Inter] saves all_fixed_time_ppo.png,
    then [PlotCav_LigthtRew_Inter] saves the same path again, over the
    file that is already there, and then the icv_ and tl_ images once
    each; the three paths are different, so three files result. *)
Theorem marked_directory_saves_all_twice PATH w df :
  let dir := data_root +:+ PATH in
  Py.contains "PO" dir = true →
  files w !! (dir +:+ "/progress.csv") = Some (CsvFile df) →
  first_missing df (consumed_columns dir) = None →
  ∃ w1 w' fa fi ft,
    PlotbothRew_Inter dir w = (inr (), w1)
    ∧ PlotCav_LigthtRew_Inter dir w1 = (inr (), w')
    ∧ PlotAll PATH w = (inr (), w')
    ∧ saved w1 = (saved w ++ [dir +:+ "/all_fixed_time_ppo.png"])%list
    ∧ saved w' = (saved w1 ++ [dir +:+ "/all_fixed_time_ppo.png";
                               dir +:+ "/icv_fixed_time_ppo.png";
                               dir +:+ "/tl_fixed_time_ppo.png"])%list
    ∧ NoDup [dir +:+ "/all_fixed_time_ppo.png";
             dir +:+ "/icv_fixed_time_ppo.png";
             dir +:+ "/tl_fixed_time_ppo.png"]
    ∧ is_Some (files w1 !! (dir +:+ "/all_fixed_time_ppo.png"))
    ∧ files w' = <[dir +:+ "/tl_fixed_time_ppo.png" := PngFile ft]>
                   (<[dir +:+ "/icv_fixed_time_ppo.png" := PngFile fi]>
                     (<[dir +:+ "/all_fixed_time_ppo.png" := PngFile fa]> (files w))).
Proof.
  intros dir Hpo Hlog Hcols. unfold consumed_columns in Hcols. rewrite Hpo in Hcols.
  change (dir +:+ "/all_fixed_time_ppo.png") with (all_png dir).
  change (dir +:+ "/icv_fixed_time_ppo.png") with (icv_png dir).
  change (dir +:+ "/tl_fixed_time_ppo.png") with (tl_png dir).
  destruct (PlotAll_marked PATH w df Hpo Hlog Hcols) as (Hboth & Hcav & Hall).
  fold dir in Hboth, Hcav, Hall. rewrite Hcav in Hall.
  eexists _, _, _, _, _. split; [exact Hboth|]. split; [exact Hcav|].
  split; [exact Hall|]. split; [by rewrite saved_drawn|]. split.
  { by rewrite !saved_drawn, <- !app_assoc. }
  split.
  { pose proof (all_not_icv dir). pose proof (all_not_tl dir).
    pose proof (icv_not_tl dir).
    repeat (apply NoDup_cons; split; [set_solver|]). apply NoDup_nil_2. }
  split.
  { rewrite files_drawn, lookup_insert_eq. by eexists. }
  rewrite !files_drawn. by rewrite insert_insert_eq.
Qed.

Lemma marked_directory_saves_all_twice_witness :
  Py.contains "PO" co_ppo_dir = true
  ∧ files co_ppo_world !! (co_ppo_dir +:+ "/progress.csv") = Some (CsvFile full_log)
  ∧ first_missing full_log (consumed_columns co_ppo_dir) = None
  ∧ ∃ w1 w' fa fi ft,
      PlotbothRew_Inter co_ppo_dir co_ppo_world = (inr (), w1)
      ∧ PlotCav_LigthtRew_Inter co_ppo_dir w1 = (inr (), w')
      ∧ PlotAll "1*1路网/Co_PPO" co_ppo_world = (inr (), w')
      ∧ saved w1 = (saved co_ppo_world ++ [co_ppo_dir +:+ "/all_fixed_time_ppo.png"])%list
      ∧ saved w' = (saved w1 ++ [co_ppo_dir +:+ "/all_fixed_time_ppo.png";
                                 co_ppo_dir +:+ "/icv_fixed_time_ppo.png";
                                 co_ppo_dir +:+ "/tl_fixed_time_ppo.png"])%list
      ∧ NoDup [co_ppo_dir +:+ "/all_fixed_time_ppo.png";
               co_ppo_dir +:+ "/icv_fixed_time_ppo.png";
               co_ppo_dir +:+ "/tl_fixed_time_ppo.png"]
      ∧ is_Some (files w1 !! (co_ppo_dir +:+ "/all_fixed_time_ppo.png"))
      ∧ files w' = <[co_ppo_dir +:+ "/tl_fixed_time_ppo.png" := PngFile ft]>
                     (<[co_ppo_dir +:+ "/icv_fixed_time_ppo.png" := PngFile fi]>
                       (<[co_ppo_dir +:+ "/all_fixed_time_ppo.png" := PngFile fa]>
                         (files co_ppo_world))).
Proof.
  split; [vm_compute; reflexivity|].
  split; [vm_compute; reflexivity|]. split; [vm_compute; reflexivity|].
  apply (marked_directory_saves_all_twice "1*1路网/Co_PPO" co_ppo_world full_log);
    vm_compute; reflexivity.
Defined.

(** C4. In a directory whose data path lacks the marker, the log of
    the scenario (columns training_iteration, episode_reward_mean,
    episode_reward_min, episode_reward_max; iterations 1, 2, 3 with means
    0.1, 0.2, 0.3) makes [PlotAll] finish without an exception after
    saving one image, the curve of the means over the iterations.  And
    [PlotbothRew_Inter] needs those four columns and no other: on any log
    it finishes exactly when the header has all four, and raises a
    KeyError naming one of the four otherwise. *)
Theorem scenario_one_image_four_columns PATH w mins maxs :
  let dir := data_root +:+ PATH in
  Py.contains "PO" dir = false →
  files w !! (dir +:+ "/progress.csv") = Some (CsvFile (scenario_log mins maxs)) →
  (∃ w',
     PlotAll PATH w = (inr (), w')
     ∧ saved w' = (saved w ++ [dir +:+ "/all_fixed_time_ppo.png"])%list
     ∧ files w' =
         <[dir +:+ "/all_fixed_time_ppo.png" :=
             PngFile (mkFigure [([Some 1%Q; Some 2%Q; Some 3%Q],
                                 [Some (1 # 10)%Q; Some (2 # 10)%Q; Some (3 # 10)%Q],
                                 "b")]
                               "number of iterations" "reward" (Some "y")
                               (Some "lower right"))]> (files w))
  ∧ (∀ any_dir w0 df,
       files w0 !! (any_dir +:+ "/progress.csv") = Some (CsvFile df) →
       ((∃ w1, PlotbothRew_Inter any_dir w0 = (inr (), w1))
        ↔ ∀ k, k ∈ ["training_iteration"; "episode_reward_mean";
                     "episode_reward_min"; "episode_reward_max"] → k ∈ columns df)
       ∧ ∀ e w1, PlotbothRew_Inter any_dir w0 = (inl e, w1) →
           w1 = w0
           ∧ ∃ k, e = KeyError k
                  ∧ k ∈ ["training_iteration"; "episode_reward_mean";
                         "episode_reward_min"; "episode_reward_max"]
                  ∧ k ∉ columns df).
Proof.
  intros dir Hpo Hlog. split.
  - rewrite (PlotAll_plain PATH w _ Hpo Hlog); [|done].
    eexists. split; [done|]. split; [by rewrite saved_drawn|].
    by rewrite files_drawn.
  - intros any_dir w0 df Hlog0. rewrite PlotbothRew_Inter_run.
    unfold both_outcome. change (any_dir +:+ "/progress.csv") with (log_of any_dir) in Hlog0.
    rewrite Hlog0.
    destruct (first_missing df episode_columns) as [k|] eqn:He.
    + split.
      * split; [by intros [? ?]|]. intros Hall.
        assert (first_missing df episode_columns = None) as Hnone; [|congruence].
        apply first_missing_None. intros k' Hk'. apply Hall.
        unfold episode_columns in Hk'. set_solver.
      * intros e w1 [= <- <-]. split; [done|]. exists k. split; [done|].
        split.
        { apply first_missing_elem in He. unfold episode_columns in He. set_solver. }
        intros Hin. clear Hlog0.
        induction episode_columns as [|k' ks IH]; [done|]. simpl in He.
        destruct (column df k') eqn:Ek; [by apply IH|].
        injection He as ->.
        apply column_is_Some in Hin as [? ?]. congruence.
    + split; [|done]. split; [|by eexists]. intros _ k Hk.
      eapply first_missing_None; [exact He|].
      unfold episode_columns. set_solver.
Qed.

Lemma scenario_one_image_four_columns_witness :
  Py.contains "PO" rl_hv_dir = false
  ∧ files rl_hv_world !! (rl_hv_dir +:+ "/progress.csv")
    = Some (CsvFile (scenario_log [Some (0 # 1)%Q; Some (1 # 10)%Q; Some (1 # 10)%Q]
                                  [Some (2 # 10)%Q; Some (3 # 10)%Q; Some (5 # 10)%Q]))
  ∧ ∃ w',
      PlotAll "1*1路网/RL_HV" rl_hv_world = (inr (), w')
      ∧ saved w' = (saved rl_hv_world ++ [rl_hv_dir +:+ "/all_fixed_time_ppo.png"])%list
      ∧ files w' =
          <[rl_hv_dir +:+ "/all_fixed_time_ppo.png" :=
              PngFile (mkFigure [([Some 1%Q; Some 2%Q; Some 3%Q],
                                  [Some (1 # 10)%Q; Some (2 # 10)%Q; Some (3 # 10)%Q],
                                  "b")]
                                "number of iterations" "reward" (Some "y")
                                (Some "lower right"))]> (files rl_hv_world).
Proof.
  split; [vm_compute; reflexivity|]. split; [vm_compute; reflexivity|].
  apply (scenario_one_image_four_columns "1*1路网/RL_HV" rl_hv_world
           [Some (0 # 1)%Q; Some (1 # 10)%Q; Some (1 # 10)%Q]
           [Some (2 # 10)%Q; Some (3 # 10)%Q; Some (5 # 10)%Q]);
    vm_compute; reflexivity.
Defined.

(** A missing log or a missing column makes [PlotAll] raise. *)
Lemma PlotAll_raises PATH w :
  let dir := data_root +:+ PATH in
  files w !! log_of dir = None
  ∨ (∃ df k, files w !! log_of dir = Some (CsvFile df)
             ∧ first_missing df (consumed_columns dir) = Some k) →
  ∃ e w2,
    PlotAll PATH w = (inl e, w2)
    ∧ (e = FileNotFoundError (log_of dir) ∧ w2 = w
       ∨ ∃ k, e = KeyError k ∧ k ∈ consumed_columns dir).
Proof.
  intros dir [Hnone | (df & k & Hlog & Hk)]; rewrite PlotAll_run; cbv zeta; fold dir.
  - exists (FileNotFoundError (log_of dir)), w. split; [|by left].
    unfold both_outcome. rewrite Hnone. by destruct (Py.contains "PO" dir).
  - pose proof (first_missing_elem _ _ _ Hk) as Hin.
    unfold consumed_columns in Hk. unfold both_outcome. rewrite Hlog.
    destruct (Py.contains "PO" dir) eqn:Hpo.
    + rewrite !first_missing_app in Hk.
      destruct (first_missing df episode_columns) as [k0|] eqn:He.
      { injection Hk as ->. eexists _, _. split; [done|]. right. by exists k. }
      unfold cav_light_outcome.
      rewrite files_drawn, lookup_insert_ne by apply log_not_all.
      rewrite Hlog, He.
      destruct (first_missing df cav_columns) as [k0|] eqn:Hc.
      { injection Hk as ->. eexists _, _. split; [done|]. right. by exists k. }
      rewrite Hk. eexists _, _. split; [done|]. right. by exists k.
    + rewrite Hk. eexists _, _. split; [done|]. right. by exists k.
Qed.

(** C5. When the log of a directory of the batch is missing, or lacks a
    column that [PlotAll] selects there, while the directories before it
    went through, [PlotAll] raises (FileNotFoundError, or KeyError for the
    missing column) and the whole run ends with that same exception in
    the world where it was raised: nothing catches it, the directory is
    not tried again, and the directories after it are never processed. *)
Theorem batch_stops_at_first_failure pre p post w w1 :
  let dir := data_root +:+ p in
  PATHS = (pre ++ p :: post)%list →
  for_in pre PlotAll w = (inr (), w1) →
  files w1 !! (dir +:+ "/progress.csv") = None
  ∨ (∃ df k, files w1 !! (dir +:+ "/progress.csv") = Some (CsvFile df)
             ∧ first_missing df (consumed_columns dir) = Some k) →
  ∃ e w2,
    PlotAll p w1 = (inl e, w2)
    ∧ main w = (inl e, w2)
    ∧ (∀ others, for_in (pre ++ p :: others) PlotAll w = (inl e, w2))
    ∧ (e = FileNotFoundError (dir +:+ "/progress.csv") ∧ w2 = w1
       ∨ ∃ k, e = KeyError k ∧ k ∈ consumed_columns dir).
Proof.
  intros dir Hsplit Hpre Hfail.
  destruct (PlotAll_raises p w1 Hfail) as (e & w2 & Hp & He).
  exists e, w2. split; [done|]. split; [|split; [|done]].
  - unfold main. rewrite Hsplit. by eapply for_in_abort.
  - intros others. by eapply for_in_abort.
Qed.

Lemma batch_stops_at_first_failure_witness :
  PATHS = (["1*1路网/Co_PPO"] ++ "1*1路网/fixedtime_cav" :: drop 2 PATHS)%list
  ∧ for_in ["1*1路网/Co_PPO"] PlotAll co_ppo_world
    = (inr (), (PlotAll "1*1路网/Co_PPO" co_ppo_world).2)
  ∧ ∃ e w2,
      PlotAll "1*1路网/fixedtime_cav" (PlotAll "1*1路网/Co_PPO" co_ppo_world).2
        = (inl e, w2)
      ∧ main co_ppo_world = (inl e, w2)
      ∧ (∀ others,
           for_in (["1*1路网/Co_PPO"] ++ "1*1路网/fixedtime_cav" :: others) PlotAll
             co_ppo_world = (inl e, w2))
      ∧ (e = FileNotFoundError
               ((data_root +:+ "1*1路网/fixedtime_cav") +:+ "/progress.csv")
           ∧ w2 = (PlotAll "1*1路网/Co_PPO" co_ppo_world).2
         ∨ ∃ k, e = KeyError k
                ∧ k ∈ consumed_columns (data_root +:+ "1*1路网/fixedtime_cav")).
Proof.
  split; [reflexivity|]. split; [vm_compute; reflexivity|].
  apply (batch_stops_at_first_failure ["1*1路网/Co_PPO"] "1*1路网/fixedtime_cav"
           (drop 2 PATHS) co_ppo_world (PlotAll "1*1路网/Co_PPO" co_ppo_world).2).
  - reflexivity.
  - vm_compute; reflexivity.
  - left. vm_compute; reflexivity.
Defined.

(** C8. The batch is the fixed list of twelve relative paths below, taken
    in that order; the driver reads nothing but the list.  The run is: the
    elements before the i-th, each by its [PlotAll] call, then one
    [PlotAll] call for the i-th element, then the elements after it. *)
Theorem batch_in_listed_order i p :
  PATHS !! i = Some p →
  PATHS = ["1*1路网/Co_PPO"; "1*1路网/fixedtime_cav"; "1*1路网/In_PPO"; "1*1路网/RL_HV";
           "1*6路网/Co_PPO"; "1*6路网/fixedtime_cav"; "1*6路网/In_PPO"; "1*6路网/RL_HV";
           "3*4路网/Co_PPO"; "3*4路网/fixedtime_cav"; "3*4路网/In_PPO"; "3*4路网/RL_HV"]
  ∧ length PATHS = 12%nat
  ∧ main = for_in PATHS PlotAll
  ∧ ∀ w, main w = (for_in (take i PATHS) PlotAll;;
                   PlotAll p;;
                   for_in (drop (S i) PATHS) PlotAll) w.
Proof.
  intros Hi. repeat split. intros w. unfold main. by apply for_in_middle.
Qed.

Lemma batch_in_listed_order_witness :
  PATHS !! 4%nat = Some "1*6路网/Co_PPO"
  ∧ PATHS = ["1*1路网/Co_PPO"; "1*1路网/fixedtime_cav"; "1*1路网/In_PPO"; "1*1路网/RL_HV";
             "1*6路网/Co_PPO"; "1*6路网/fixedtime_cav"; "1*6路网/In_PPO"; "1*6路网/RL_HV";
             "3*4路网/Co_PPO"; "3*4路网/fixedtime_cav"; "3*4路网/In_PPO"; "3*4路网/RL_HV"]
  ∧ length PATHS = 12%nat
  ∧ main = for_in PATHS PlotAll
  ∧ ∀ w, main w = (for_in (take 4 PATHS) PlotAll;;
                   PlotAll "1*6路网/Co_PPO";;
                   for_in (drop 5 PATHS) PlotAll) w.
Proof.
  split; [reflexivity|].
  apply (batch_in_listed_order 4 "1*6路网/Co_PPO"). reflexivity.
Defined.

(** C9. The marker is the two capital letters "PO", matched exactly as
    written.  [PlotAll] looks for it in the data path, the fixed root
    followed by the relative name; the root has no "PO" in it and ends in
    "/", so the outcome of the test is that of the relative name alone,
    and a name with "po" in small letters only gets the single plot. *)
Theorem marker_tested_on_data_path :
  (∀ PATH,
     PlotAll PATH =
       if Py.contains "PO" (data_root +:+ PATH)
       then (PlotbothRew_Inter (data_root +:+ PATH);;
             PlotCav_LigthtRew_Inter (data_root +:+ PATH))
       else PlotbothRew_Inter (data_root +:+ PATH))
  ∧ data_root = "/home/g/software/pycharm/projects/flow-SEU/workplace/final/"
  ∧ (∀ s, Py.contains "PO" s = true ↔ ∃ pre post, s = pre +:+ ("PO" +:+ post))
  ∧ Py.contains "PO" data_root = false
  ∧ (∀ PATH, Py.contains "PO" (data_root +:+ PATH) = Py.contains "PO" PATH)
  ∧ (∀ PATH,
       PlotAll PATH =
         if Py.contains "PO" PATH
         then (PlotbothRew_Inter (data_root +:+ PATH);;
               PlotCav_LigthtRew_Inter (data_root +:+ PATH))
         else PlotbothRew_Inter (data_root +:+ PATH))
  ∧ Py.contains "po" "1*1路网/co_ppo" = true
  ∧ Py.contains "PO" "1*1路网/co_ppo" = false
  ∧ PlotAll "1*1路网/co_ppo" = PlotbothRew_Inter (data_root +:+ "1*1路网/co_ppo").
Proof.
  split; [done|]. split; [done|]. split; [apply contains_spec|].
  split; [done|]. split; [apply marker_skips_root|].
  split; [|by repeat split].
  intros PATH. unfold PlotAll. cbv zeta. by rewrite marker_skips_root.
Qed.

End plotter_claims.

(** ** Further properties of the log plotter *)

Section plotter_frames.
Import PlotReward.
Local Open Scope string_scope.

Lemma length_append (s t : string) :
  String.length (s +:+ t) = (String.length s + String.length t)%nat.
Proof.
  induction s as [|a s IH]; [done|].
  rewrite append_cons. simpl. by rewrite IH.
Qed.

(** Two paths whose last bytes differ are different, whatever the
    directories in front. *)
Lemma suffix_neq (d d' base base' : string) n m a b :
  String.get n base = Some a → String.length base = S n →
  String.get m base' = Some b → String.length base' = S m →
  a ≠ b → d +:+ base ≠ d' +:+ base'.
Proof.
  intros Ha Hn Hb Hm Hab Heq.
  assert (String.length d + S n = String.length d' + S m)%nat as Hlen.
  { rewrite <- Hn, <- Hm, <- !length_append. by rewrite Heq. }
  rewrite (String.append_correct2 d base n) in Ha.
  rewrite (String.append_correct2 d' base' m) in Hb.
  rewrite Heq in Ha. replace (n + String.length d)%nat
    with (m + String.length d')%nat in Ha by lia.
  congruence.
Qed.

Lemma log_not_image d d' : log_of d ≠ all_png d' ∧ log_of d ≠ icv_png d'
  ∧ log_of d ≠ tl_png d'.
Proof.
  unfold log_of, all_png, icv_png, tl_png.
  repeat split; eapply suffix_neq; try reflexivity; done.
Qed.

Lemma log_not_saved d PATH : log_of d ∉ saves_of PATH.
Proof.
  destruct (log_not_image d (data_root +:+ PATH)) as (Ha & Hi & Ht).
  unfold saves_of. cbv zeta. destruct (Py.contains _ _);
    rewrite ?elem_of_cons, elem_of_nil; tauto.
Qed.

Lemma draw_all_app steps steps' w :
  draw_all (steps ++ steps') w = draw_all steps' (draw_all steps w).
Proof. unfold draw_all. by rewrite foldl_app. Qed.

Lemma saved_draw_all steps w :
  saved (draw_all steps w) = (saved w ++ steps.*1)%list.
Proof.
  revert w. induction steps as [|[p f] steps IH]; intros w; simpl.
  - by rewrite app_nil_r.
  - change (draw_all ((p, f) :: steps) w) with (draw_all steps (drawn p f w)).
    by rewrite IH, saved_drawn, <- app_assoc.
Qed.

Lemma events_draw_all steps w :
  events (draw_all steps w)
  = (events w ++ (steps.*1 ≫= λ p, [EvShow; EvSave p]))%list.
Proof.
  revert w. induction steps as [|[p f] steps IH]; intros w; simpl.
  - by rewrite app_nil_r.
  - change (draw_all ((p, f) :: steps) w) with (draw_all steps (drawn p f w)).
    rewrite IH. unfold drawn. simpl. by rewrite <- app_assoc.
Qed.

Lemma files_draw_all_other steps w p :
  p ∉ steps.*1 → files (draw_all steps w) !! p = files w !! p.
Proof.
  revert w. induction steps as [|[q f] steps IH]; intros w Hp; [done|].
  change (draw_all ((q, f) :: steps) w) with (draw_all steps (drawn q f w)).
  simpl in Hp. apply not_elem_of_cons in Hp as [Hq Hp].
  rewrite IH by done. rewrite files_drawn. by rewrite lookup_insert_ne.
Qed.

Lemma files_draw_all_kept steps w p :
  is_Some (files w !! p) → is_Some (files (draw_all steps w) !! p).
Proof.
  revert w. induction steps as [|[q f] steps IH]; intros w Hp; [done|].
  change (draw_all ((q, f) :: steps) w) with (draw_all steps (drawn q f w)).
  apply IH. rewrite files_drawn. destruct (decide (q = p)) as [->|].
  - rewrite lookup_insert_eq. by eexists.
  - by rewrite lookup_insert_ne.
Qed.

(** Whatever happens, [PlotAll] leaves the world some of its figures
    further: it stops after a beginning of [saves_of], the whole of it
    when nothing is raised. *)
Lemma PlotAll_steps PATH w :
  ∃ r steps,
    PlotAll PATH w = (r, draw_all steps w)
    ∧ steps.*1 `prefix_of` saves_of PATH
    ∧ (r = inr () → steps.*1 = saves_of PATH).
Proof.
  rewrite PlotAll_run. unfold saves_of. cbv zeta.
  set (dir := data_root +:+ PATH).
  unfold both_outcome.
  destruct (files w !! log_of dir) as [[df| |]|] eqn:Hlog.
  2-4: destruct (Py.contains "PO" dir); eexists _, []; (split; [done|]);
       (split; [apply prefix_nil|done]).
  destruct (first_missing df episode_columns) as [k|] eqn:He.
  { destruct (Py.contains "PO" dir); eexists _, []; (split; [done|]);
      (split; [apply prefix_nil|done]). }
  set (fa := reward_figure df "episode_reward_mean" "reward").
  destruct (Py.contains "PO" dir).
  2: { eexists _, [(all_png dir, fa)]. by repeat split. }
  unfold cav_light_outcome.
  rewrite files_drawn, lookup_insert_ne by apply log_not_all.
  rewrite Hlog, He. fold fa.
  destruct (first_missing df cav_columns) as [k|] eqn:Hc.
  { eexists _, [(all_png dir, fa); (all_png dir, fa)]. split; [done|].
    split; [by eexists [_; _]|done]. }
  set (fi := reward_figure df "policy_reward_mean/cav" "icv_reward").
  destruct (first_missing df tl_columns) as [k|] eqn:Ht.
  { eexists _, [(all_png dir, fa); (all_png dir, fa); (icv_png dir, fi)].
    split; [done|]. split; [by eexists [_]|done]. }
  eexists _, [(all_png dir, fa); (all_png dir, fa); (icv_png dir, fi);
              (tl_png dir, _)].
  by repeat split.
Qed.

Lemma for_in_steps ps w :
  ∃ r steps,
    for_in ps PlotAll w = (r, draw_all steps w)
    ∧ steps.*1 `prefix_of` (ps ≫= saves_of)
    ∧ (r = inr () → steps.*1 = ps ≫= saves_of).
Proof.
  revert w. induction ps as [|p ps IH]; intros w.
  { exists (inr ()), []. by repeat split. }
  destruct (PlotAll_steps p w) as (r1 & steps1 & Hp & Hpre1 & Hall1).
  simpl for_in. unfold mbind at 1, M_bind at 1. rewrite Hp.
  destruct r1 as [e|[]].
  - exists (inl e), steps1. split; [done|]. split; [|done].
    change ((p :: ps) ≫= saves_of) with (saves_of p ++ (ps ≫= saves_of))%list.
    by apply prefix_app_r.
  - destruct (IH (draw_all steps1 w)) as (r & steps & Hps & Hpre & Hall).
    exists r, (steps1 ++ steps)%list. rewrite draw_all_app. split; [done|].
    change ((p :: ps) ≫= saves_of) with (saves_of p ++ (ps ≫= saves_of))%list.
    rewrite fmap_app, Hall1 by done. split; [by apply prefix_app|].
    intros Hr. by rewrite Hall.
Qed.

(** With a complete log, [PlotAll] goes through, saves what [saves_of]
    lists, and leaves every log of every directory as it was. *)
Lemma PlotAll_complete PATH w :
  complete_log w PATH = true →
  ∃ w1, PlotAll PATH w = (inr (), w1)
        ∧ saved w1 = (saved w ++ saves_of PATH)%list
        ∧ ∀ q, complete_log w1 q = complete_log w q.
Proof.
  unfold complete_log. intros Hc.
  destruct (files w !! log_of (data_root +:+ PATH)) as [[df| |]|] eqn:Hlog; try done.
  apply bool_decide_eq_true in Hc.
  destruct (PlotAll_steps PATH w) as (r & steps & Hrun & _ & Hall).
  assert (r = inr ()) as ->.
  { unfold consumed_columns in Hc.
    destruct (Py.contains "PO" (data_root +:+ PATH)) eqn:Hpo.
    - destruct (PlotAll_marked PATH w df Hpo Hlog Hc) as (_ & Hcav & Hpa).
      rewrite Hpa, Hcav in Hrun. by injection Hrun.
    - rewrite (PlotAll_plain PATH w df Hpo Hlog Hc) in Hrun. by injection Hrun. }
  exists (draw_all steps w). split; [done|].
  split; [by rewrite saved_draw_all, Hall|].
  intros q. rewrite files_draw_all_other; [done|].
  rewrite Hall by done. apply log_not_saved.
Qed.

End plotter_frames.

Section plotter_extras.
Import PlotReward.
Local Open Scope string_scope.


(** X2. [PlotCav_LigthtRew_Inter] is not all or nothing.  On a log with
    the episode columns but without one of the per-role columns it raises
    KeyError for the first missing one only after saving what comes
    before: the all_ image when a cav column is missing, the all_ and
    icv_ images when only a tl column is; the tl_ image is not written. *)
Theorem PlotCav_LigthtRew_Inter_partial dir w df k :
  files w !! (dir +:+ "/progress.csv") = Some (CsvFile df) →
  first_missing df episode_columns = None →
  first_missing df (cav_columns ++ tl_columns) = Some k →
  ∃ w',
    PlotCav_LigthtRew_Inter dir w = (inl (KeyError k), w')
    ∧ saved w' = (saved w ++
        match first_missing df cav_columns with
        | Some _ => [dir +:+ "/all_fixed_time_ppo.png"]
        | None => [dir +:+ "/all_fixed_time_ppo.png";
                   dir +:+ "/icv_fixed_time_ppo.png"]
        end)%list
    ∧ is_Some (files w' !! (dir +:+ "/all_fixed_time_ppo.png"))
    ∧ files w' !! (dir +:+ "/tl_fixed_time_ppo.png")
      = files w !! (dir +:+ "/tl_fixed_time_ppo.png").
Proof.
  intros Hlog He Hk. rewrite first_missing_app in Hk.
  change (dir +:+ "/progress.csv") with (log_of dir) in Hlog.
  change (dir +:+ "/all_fixed_time_ppo.png") with (all_png dir).
  change (dir +:+ "/icv_fixed_time_ppo.png") with (icv_png dir).
  change (dir +:+ "/tl_fixed_time_ppo.png") with (tl_png dir).
  rewrite PlotCav_LigthtRew_Inter_run. unfold cav_light_outcome.
  rewrite Hlog, He.
  pose proof (all_not_tl dir) as Hat. pose proof (icv_not_tl dir) as Hit.
  destruct (first_missing df cav_columns) as [k'|].
  - injection Hk as ->. eexists. split; [done|].
    rewrite saved_drawn, files_drawn. split; [done|].
    rewrite lookup_insert_eq, lookup_insert_ne by done. by split; [eexists|].
  - rewrite Hk. eexists. split; [done|].
    rewrite !saved_drawn, !files_drawn, <- app_assoc. split; [done|].
    rewrite !(lookup_insert_ne _ _ (tl_png dir)) by done.
    rewrite lookup_insert_ne by (by apply not_eq_sym, all_not_icv).
    rewrite lookup_insert_eq. by split; [eexists|].
Qed.

Lemma PlotCav_LigthtRew_Inter_partial_witness :
  files (disk [(co_ppo_dir +:+ "/progress.csv", CsvFile no_tl_log)])
    !! (co_ppo_dir +:+ "/progress.csv") = Some (CsvFile no_tl_log)
  ∧ first_missing no_tl_log episode_columns = None
  ∧ first_missing no_tl_log (cav_columns ++ tl_columns) = Some "policy_reward_max/tl"
  ∧ ∃ w',
      PlotCav_LigthtRew_Inter co_ppo_dir
        (disk [(co_ppo_dir +:+ "/progress.csv", CsvFile no_tl_log)])
        = (inl (KeyError "policy_reward_max/tl"), w')
      ∧ saved w' = [co_ppo_dir +:+ "/all_fixed_time_ppo.png";
                    co_ppo_dir +:+ "/icv_fixed_time_ppo.png"].
Proof.
  split; [vm_compute; reflexivity|]. split; [vm_compute; reflexivity|].
  split; [vm_compute; reflexivity|].
  destruct (PlotCav_LigthtRew_Inter_partial co_ppo_dir
              (disk [(co_ppo_dir +:+ "/progress.csv", CsvFile no_tl_log)])
              no_tl_log "policy_reward_max/tl")
    as (w' & Hrun & Hsaved & _); [vm_compute; reflexivity..|].
  exists w'. split; [exact Hrun|exact Hsaved].
Defined.

(** X3. Whatever [PlotAll] does on a relative path, and whether or not
    it raises, the only files it can change are the three images of that
    data directory: every other path, every progress.csv among them, holds
    what it held before, and no file disappears. *)
Theorem PlotAll_touches_images_only PATH w :
  let dir := data_root +:+ PATH in
  let w' := (PlotAll PATH w).2 in
  (∀ p, p ≠ dir +:+ "/all_fixed_time_ppo.png" →
        p ≠ dir +:+ "/icv_fixed_time_ppo.png" →
        p ≠ dir +:+ "/tl_fixed_time_ppo.png" →
        files w' !! p = files w !! p)
  ∧ (∀ d, files w' !! (d +:+ "/progress.csv") = files w !! (d +:+ "/progress.csv"))
  ∧ (∀ p, is_Some (files w !! p) → is_Some (files w' !! p)).
Proof.
  intros dir w'. unfold w'.
  destruct (PlotAll_steps PATH w) as (r & steps & -> & Hpre & _). simpl.
  split; [|split].
  - intros p Ha Hi Ht. apply files_draw_all_other. intros Hp.
    eapply elem_of_prefix in Hp; [|exact Hpre].
    unfold saves_of in Hp. cbv zeta in Hp. fold dir in Hp.
    destruct (Py.contains "PO" dir);
      rewrite ?elem_of_cons, elem_of_nil in Hp; unfold all_png, icv_png, tl_png in Hp;
      tauto.
  - intros d. apply files_draw_all_other. intros Hp.
    eapply elem_of_prefix in Hp; [|exact Hpre].
    by apply (log_not_saved d PATH).
  - intros p. apply files_draw_all_kept.
Qed.

(** X4. Every [savefig] of [PlotAll] comes right after a [plt.show()]:
    the calls it adds to the history are show, save, show, save, ... over
    a beginning of the images of the directory, whether or not it
    raises. *)
Theorem PlotAll_shows_before_saving PATH w :
  ∃ new,
    new `prefix_of` saves_of PATH
    ∧ saved (PlotAll PATH w).2 = (saved w ++ new)%list
    ∧ events (PlotAll PATH w).2
      = (events w ++ (new ≫= λ p, [EvShow; EvSave p]))%list.
Proof.
  destruct (PlotAll_steps PATH w) as (r & steps & -> & Hpre & _). simpl.
  exists (steps.*1). split; [done|].
  by rewrite saved_draw_all, events_draw_all.
Qed.

(** X5. The whole batch never changes a progress.csv, in any directory,
    and never removes a file, however the run ends; a path that is not an
    image of one of the twelve directories is left alone. *)
Theorem main_leaves_logs_alone w :
  (∀ d, files (main w).2 !! (d +:+ "/progress.csv")
        = files w !! (d +:+ "/progress.csv"))
  ∧ (∀ p, is_Some (files w !! p) → is_Some (files (main w).2 !! p))
  ∧ (∀ p, p ∉ PATHS ≫= saves_of → files (main w).2 !! p = files w !! p).
Proof.
  unfold main.
  destruct (for_in_steps PATHS w) as (r & steps & -> & Hpre & _). simpl.
  split; [|split].
  - intros d. apply files_draw_all_other. intros Hp.
    eapply elem_of_prefix in Hp; [|exact Hpre].
    apply list_elem_of_bind in Hp as (PATH & Hp & _).
    by apply (log_not_saved d PATH).
  - intros p. apply files_draw_all_kept.
  - intros p Hp. apply files_draw_all_other. intros Hin. apply Hp.
    by eapply elem_of_prefix.
Qed.

(** Complete logs stay complete through a loop of [PlotAll], which
    therefore runs to its end. *)
Lemma for_in_PlotAll_complete ps w :
  forallb (complete_log w) ps = true →
  ∃ w',
    for_in ps PlotAll w = (inr (), w')
    ∧ saved w' = (saved w ++ (ps ≫= saves_of))%list
    ∧ forallb (complete_log w') ps = true.
Proof.
  intros Hall.
  assert (∀ qs, forallb (complete_log w) qs = true →
    ∃ w', for_in ps PlotAll w = (inr (), w')
          ∧ saved w' = (saved w ++ (ps ≫= saves_of))%list
          ∧ forallb (complete_log w') qs = true) as Hgen; [|by apply Hgen].
  revert w Hall. induction ps as [|p ps IH]; intros w Hall qs Hqs.
  { exists w. by rewrite app_nil_r. }
  simpl in Hall. apply andb_true_iff in Hall as [Hp Hps].
  destruct (PlotAll_complete p w Hp) as (w1 & Hrun & Hsaved & Hkeep).
  assert (∀ l, forallb (complete_log w1) l = forallb (complete_log w) l) as Hsame.
  { intros l. induction l as [|x l IHl]; [done|]. simpl. by rewrite Hkeep, IHl. }
  destruct (IH w1) with (qs := qs) as (w' & Hrest & Hsaved' & Hqs').
  { by rewrite Hsame. }
  { by rewrite Hsame. }
  exists w'. simpl for_in. unfold mbind at 1, M_bind at 1. rewrite Hrun.
  split; [done|]. split; [|done].
  rewrite Hsaved', Hsaved, <- app_assoc. done.
Qed.

(** X6. A loop of [PlotAll] over any list of relative paths whose logs are
    all complete finishes without an exception; its [savefig] calls are
    those of the directories one after the other, in list order, and the
    logs are still complete afterwards. *)
Theorem for_in_complete_logs ps w :
  forallb (complete_log w) ps = true →
  ∃ w',
    for_in ps PlotAll w = (inr (), w')
    ∧ saved w' = (saved w ++ (ps ≫= saves_of))%list
    ∧ forallb (complete_log w') ps = true.
Proof.
  apply for_in_PlotAll_complete.
Qed.

Lemma for_in_complete_logs_witness :
  forallb (complete_log batch_world) ["1*1路网/Co_PPO"; "1*1路网/RL_HV"] = true
  ∧ ∃ w',
      for_in ["1*1路网/Co_PPO"; "1*1路网/RL_HV"] PlotAll batch_world = (inr (), w')
      ∧ saved w' = (saved batch_world
                    ++ (["1*1路网/Co_PPO"; "1*1路网/RL_HV"] ≫= saves_of))%list
      ∧ forallb (complete_log w') ["1*1路网/Co_PPO"; "1*1路网/RL_HV"] = true.
Proof.
  split; [vm_compute; reflexivity|].
  apply (for_in_complete_logs ["1*1路网/Co_PPO"; "1*1路网/RL_HV"] batch_world).
  vm_compute; reflexivity.
Defined.

(** X7. When each of the twelve directories holds a complete log, the
    batch finishes without an exception after thirty [savefig] calls, four
    in each of the six Co_PPO and In_PPO directories and one in each of
    the others, on twenty-four different paths. *)
Theorem main_on_complete_logs w :
  forallb (complete_log w) PATHS = true →
  ∃ w',
    main w = (inr (), w')
    ∧ saved w' = (saved w ++ (PATHS ≫= saves_of))%list
    ∧ length <$> (saves_of <$> PATHS) = [4; 1; 4; 1; 4; 1; 4; 1; 4; 1; 4; 1]
    ∧ length (PATHS ≫= saves_of) = 30
    ∧ length (remove_dups (PATHS ≫= saves_of)) = 24.
Proof.
  intros Hall.
  destruct (for_in_PlotAll_complete PATHS w Hall) as (w' & Hrun & Hsaved & _).
  exists w'. split; [done|]. split; [done|].
  repeat split; by vm_compute.
Qed.

Lemma main_on_complete_logs_witness :
  forallb (complete_log batch_world) PATHS = true
  ∧ ∃ w',
      main batch_world = (inr (), w')
      ∧ saved w' = (saved batch_world ++ (PATHS ≫= saves_of))%list
      ∧ length <$> (saves_of <$> PATHS) = [4; 1; 4; 1; 4; 1; 4; 1; 4; 1; 4; 1]
      ∧ length (PATHS ≫= saves_of) = 30
      ∧ length (remove_dups (PATHS ≫= saves_of)) = 24.
Proof.
  split; [vm_compute; reflexivity|].
  apply (main_on_complete_logs batch_world). vm_compute; reflexivity.
Defined.

(** X8. Running [PlotAll] a second time on a directory with a complete
    log goes through again and leaves the file system as the first run
    left it: the images are overwritten with the same pictures, while the
    history grows by the same [savefig] calls once more. *)
Theorem PlotAll_twice_same_files PATH w :
  complete_log w PATH = true →
  ∃ w1 w2,
    PlotAll PATH w = (inr (), w1)
    ∧ PlotAll PATH w1 = (inr (), w2)
    ∧ files w2 = files w1
    ∧ saved w2 = (saved w ++ saves_of PATH ++ saves_of PATH)%list.
Proof.
  intros Hc.
  destruct (PlotAll_complete PATH w Hc) as (w1 & Hrun1 & Hsaved1 & Hkeep).
  assert (complete_log w1 PATH = true) as Hc1 by by rewrite Hkeep.
  destruct (PlotAll_complete PATH w1 Hc1) as (w2 & Hrun2 & Hsaved2 & _).
  exists w1, w2. split; [done|]. split; [done|].
  split; [|by rewrite Hsaved2, Hsaved1, <- app_assoc].
  unfold complete_log in Hc, Hc1.
  set (dir := data_root +:+ PATH) in *.
  destruct (files w !! log_of dir) as [[df| |]|] eqn:Hlog; try done.
  destruct (files w1 !! log_of dir) as [[df1| |]|] eqn:Hlog1; try done.
  apply bool_decide_eq_true in Hc, Hc1.
  assert (df1 = df) as ->.
  { destruct (PlotAll_steps PATH w) as (r & steps & Hrun & Hpre & _).
    rewrite Hrun1 in Hrun. injection Hrun as _ ->.
    rewrite files_draw_all_other in Hlog1; [congruence|].
    intros Hin. eapply elem_of_prefix in Hin; [|exact Hpre].
    by apply (log_not_saved dir PATH). }
  pose proof (all_not_icv dir) as Hai. pose proof (all_not_tl dir) as Hat.
  pose proof (icv_not_tl dir) as Hit.
  unfold consumed_columns in Hc, Hc1. fold dir in Hc, Hc1.
  destruct (Py.contains "PO" dir) eqn:Hpo.
  - destruct (PlotAll_marked PATH w df Hpo Hlog Hc) as (_ & Hcav & Hpa).
    destruct (PlotAll_marked PATH w1 df Hpo Hlog1 Hc1) as (_ & Hcav1 & Hpa1).
    fold dir in Hcav, Hpa, Hcav1, Hpa1.
    rewrite Hpa, Hcav in Hrun1. rewrite Hpa1, Hcav1 in Hrun2.
    injection Hrun1 as <-. injection Hrun2 as <-.
    rewrite !files_drawn. apply map_eq. intros p.
    destruct (decide (p = tl_png dir)) as [->|];
      [by rewrite !lookup_insert_eq | rewrite !(lookup_insert_ne _ (tl_png dir)) by done].
    destruct (decide (p = icv_png dir)) as [->|];
      [by rewrite !lookup_insert_eq | rewrite !(lookup_insert_ne _ (icv_png dir)) by done].
    destruct (decide (p = all_png dir)) as [->|];
      [by rewrite !lookup_insert_eq|].
    by repeat (rewrite lookup_insert_ne by done).
  - rewrite (PlotAll_plain PATH w df Hpo Hlog Hc) in Hrun1.
    rewrite (PlotAll_plain PATH w1 df Hpo Hlog1 Hc1) in Hrun2.
    injection Hrun1 as <-. injection Hrun2 as <-.
    rewrite !files_drawn. by rewrite insert_insert_eq.
Qed.

Lemma PlotAll_twice_same_files_witness :
  complete_log co_ppo_world "1*1路网/Co_PPO" = true
  ∧ ∃ w1 w2,
      PlotAll "1*1路网/Co_PPO" co_ppo_world = (inr (), w1)
      ∧ PlotAll "1*1路网/Co_PPO" w1 = (inr (), w2)
      ∧ files w2 = files w1
      ∧ saved w2 = (saved co_ppo_world ++ saves_of "1*1路网/Co_PPO"
                    ++ saves_of "1*1路网/Co_PPO")%list.
Proof.
  split; [vm_compute; reflexivity|].
  apply (PlotAll_twice_same_files "1*1路网/Co_PPO" co_ppo_world).
  vm_compute; reflexivity.
Defined.

(** X9. The columns episode_reward_max and episode_reward_min are
    selected although no curve is drawn from them: a log without one of
    them is refused with a KeyError naming it (the maximum first), even
    when the two plotted columns are there, and nothing is written. *)
Theorem PlotbothRew_Inter_needs_unplotted_columns dir w df :
  files w !! (dir +:+ "/progress.csv") = Some (CsvFile df) →
  "episode_reward_max" ∉ columns df ∨ "episode_reward_min" ∉ columns df →
  PlotbothRew_Inter dir w =
    (inl (KeyError (if decide ("episode_reward_max" ∈ columns df)
                    then "episode_reward_min" else "episode_reward_max")), w).
Proof.
  intros Hlog Hmiss. rewrite PlotbothRew_Inter_run. unfold both_outcome.
  change (dir +:+ "/progress.csv") with (log_of dir) in Hlog. rewrite Hlog.
  unfold episode_columns. simpl first_missing.
  case_decide as Hmax.
  - destruct Hmiss as [?|Hmin]; [done|].
    apply column_is_Some in Hmax as [smax ->].
    destruct (column df "episode_reward_min") as [smin|] eqn:Emin; [|done].
    exfalso. apply Hmin, column_is_Some. by eexists.
  - destruct (column df "episode_reward_max") as [smax|] eqn:Emax; [|done].
    exfalso. apply Hmax, column_is_Some. by eexists.
Qed.

Lemma PlotbothRew_Inter_needs_unplotted_columns_witness :
  files (disk [(rl_hv_dir +:+ "/progress.csv",
                CsvFile (mkDataFrame ["training_iteration"; "episode_reward_mean"]
                                     [[Some 1%Q; Some (1 # 10)%Q]]))])
    !! (rl_hv_dir +:+ "/progress.csv")
  = Some (CsvFile (mkDataFrame ["training_iteration"; "episode_reward_mean"]
                               [[Some 1%Q; Some (1 # 10)%Q]]))
  ∧ PlotbothRew_Inter rl_hv_dir
      (disk [(rl_hv_dir +:+ "/progress.csv",
              CsvFile (mkDataFrame ["training_iteration"; "episode_reward_mean"]
                                   [[Some 1%Q; Some (1 # 10)%Q]]))])
    = (inl (KeyError "episode_reward_max"),
       disk [(rl_hv_dir +:+ "/progress.csv",
              CsvFile (mkDataFrame ["training_iteration"; "episode_reward_mean"]
                                   [[Some 1%Q; Some (1 # 10)%Q]]))]).
Proof.
  split; [vm_compute; reflexivity|].
  apply (PlotbothRew_Inter_needs_unplotted_columns rl_hv_dir _
           (mkDataFrame ["training_iteration"; "episode_reward_mean"]
                        [[Some 1%Q; Some (1 # 10)%Q]])).
  - vm_compute; reflexivity.
  - left. apply (bool_decide_unpack _). vm_compute; reflexivity.
Defined.

(** X10. The image [PlotbothRew_Inter] saves shows the mean reward over
    the iteration number and nothing else: two complete logs with the
    same training_iteration and episode_reward_mean columns give the same
    image file, whatever their minima, maxima and other columns. *)
Theorem PlotbothRew_Inter_image_from_two_columns dir wa wb dfa dfb :
  files wa !! (dir +:+ "/progress.csv") = Some (CsvFile dfa) →
  files wb !! (dir +:+ "/progress.csv") = Some (CsvFile dfb) →
  first_missing dfa episode_columns = None →
  first_missing dfb episode_columns = None →
  column dfa "training_iteration" = column dfb "training_iteration" →
  column dfa "episode_reward_mean" = column dfb "episode_reward_mean" →
  ∃ wa' wb' x y,
    PlotbothRew_Inter dir wa = (inr (), wa')
    ∧ PlotbothRew_Inter dir wb = (inr (), wb')
    ∧ column dfa "training_iteration" = Some x
    ∧ column dfa "episode_reward_mean" = Some y
    ∧ files wa' !! (dir +:+ "/all_fixed_time_ppo.png")
      = Some (PngFile (mkFigure [(x, y, "b")] "number of iterations" "reward"
                                (Some "y") (Some "lower right")))
    ∧ files wb' !! (dir +:+ "/all_fixed_time_ppo.png")
      = files wa' !! (dir +:+ "/all_fixed_time_ppo.png").
Proof.
  intros Ha Hb Hca Hcb Hit Hmean.
  change (dir +:+ "/progress.csv") with (log_of dir) in Ha, Hb.
  change (dir +:+ "/all_fixed_time_ppo.png") with (all_png dir).
  rewrite !PlotbothRew_Inter_run. unfold both_outcome.
  rewrite Ha, Hb, Hca, Hcb.
  assert (is_Some (column dfa "training_iteration")) as [x Hx].
  { apply column_is_Some. eapply first_missing_None; [exact Hca|].
    unfold episode_columns. set_solver. }
  assert (is_Some (column dfa "episode_reward_mean")) as [y Hy].
  { apply column_is_Some. eapply first_missing_None; [exact Hca|].
    unfold episode_columns. set_solver. }
  eexists _, _, x, y. split; [done|]. split; [done|].
  split; [done|]. split; [done|].
  rewrite !files_drawn, !lookup_insert_eq. unfold reward_figure, col.
  rewrite <- Hit, <- Hmean, Hx, Hy. done.
Qed.

Lemma PlotbothRew_Inter_image_from_two_columns_witness :
  ∃ wa' wb' x y,
    PlotbothRew_Inter rl_hv_dir rl_hv_world = (inr (), wa')
    ∧ PlotbothRew_Inter rl_hv_dir
        (disk [(rl_hv_dir +:+ "/progress.csv", CsvFile (scenario_log [] []))])
      = (inr (), wb')
    ∧ column (scenario_log [Some (0 # 1)%Q; Some (1 # 10)%Q; Some (1 # 10)%Q]
                           [Some (2 # 10)%Q; Some (3 # 10)%Q; Some (5 # 10)%Q])
             "training_iteration" = Some x
    ∧ column (scenario_log [Some (0 # 1)%Q; Some (1 # 10)%Q; Some (1 # 10)%Q]
                           [Some (2 # 10)%Q; Some (3 # 10)%Q; Some (5 # 10)%Q])
             "episode_reward_mean" = Some y
    ∧ files wa' !! (rl_hv_dir +:+ "/all_fixed_time_ppo.png")
      = Some (PngFile (mkFigure [(x, y, "b")] "number of iterations" "reward"
                                (Some "y") (Some "lower right")))
    ∧ files wb' !! (rl_hv_dir +:+ "/all_fixed_time_ppo.png")
      = files wa' !! (rl_hv_dir +:+ "/all_fixed_time_ppo.png").
Proof.
  apply (PlotbothRew_Inter_image_from_two_columns rl_hv_dir rl_hv_world
           (disk [(rl_hv_dir +:+ "/progress.csv", CsvFile (scenario_log [] []))])
           (scenario_log [Some (0 # 1)%Q; Some (1 # 10)%Q; Some (1 # 10)%Q]
                         [Some (2 # 10)%Q; Some (3 # 10)%Q; Some (5 # 10)%Q])
           (scenario_log [] []));
    vm_compute; reflexivity.
Defined.

End plotter_extras.

(** ** Further properties of the experiment configurator *)

Section configurator_extras.
Import CavAndLight.
Local Open Scope string_scope.
Local Open Scope Z_scope.

(** The configuration [setup_exps] returns, entry by entry. *)
Lemma setup_exps_entries default_config flow_json create_env gym_name m e ma :
  default_config !! "model" = Some (Dict m) →
  default_config !! "env_config" = Some (Dict e) →
  default_config !! "multiagent" = Some (Dict ma) →
  ∃ config,
    setup_exps default_config flow_json create_env gym_name
      = Some ("PPO", gym_name, config)
    ∧ config !! "model" = Some (Dict (<["fcnet_hiddens" := Val (VInts [3; 3])]> m))
    ∧ config !! "env_config"
      = Some (Dict (<["run" := Val (VStr "PPO")]>
                     (<["flow_params" := Val (VStr flow_json)]> e)))
    ∧ config !! "multiagent" = Some (Dict (multiagent_of (create_env ()) ma))
    ∧ (∀ k, k ∉ written_keys → config !! k = default_config !! k).
Proof.
  intros Hm He Hma.
  unfold setup_exps, setitem_in.
  erewrite update_in_Some; [|by simplify_map_eq].
  simpl.
  erewrite update_in_Some; [|by simplify_map_eq].
  simpl.
  erewrite update_in_Some; [|by simplify_map_eq].
  simpl.
  erewrite update_in_Some; [|by simplify_map_eq].
  simpl.
  erewrite update_in_Some; [|by simplify_map_eq].
  simpl.
  erewrite update_in_Some; [|by simplify_map_eq].
  simpl.
  eexists. split; [reflexivity|].
  split; [by simplify_map_eq; rewrite !singleton_union|].
  split; [by simplify_map_eq; rewrite !singleton_union|].
  split.
  { rewrite lookup_insert_eq. unfold multiagent_of. by rewrite !singleton_union. }
  intros k Hk. unfold written_keys in Hk.
  rewrite !lookup_insert_ne; [done|..]; intros <-; apply Hk; set_solver.
Qed.

(** X11. [setup_exps] goes through exactly when the trainer defaults hold
    a dictionary under each of "model", "env_config" and "multiagent";
    when one of the three is absent, or is not a dictionary, the nested
    update on it fails and no configuration is returned. *)
Theorem setup_exps_needs_nested_dicts default_config flow_json create_env gym_name :
  is_Some (setup_exps default_config flow_json create_env gym_name)
  ↔ ∃ m e ma,
      default_config !! "model" = Some (Dict m)
      ∧ default_config !! "env_config" = Some (Dict e)
      ∧ default_config !! "multiagent" = Some (Dict ma).
Proof.
  split.
  - intros [res Hres]. unfold setup_exps, setitem_in, update_in in Hres.
    rewrite !lookup_insert_ne in Hres by done.
    destruct (default_config !! "model") as [[|m]|] eqn:Hm; try done.
    simpl in Hres. rewrite !lookup_insert_ne in Hres by done.
    destruct (default_config !! "env_config") as [[|e]|] eqn:He; try done.
    simpl in Hres. rewrite lookup_insert_eq in Hres. simpl in Hres.
    rewrite lookup_insert_ne in Hres by done.
    rewrite !lookup_insert_ne in Hres by done.
    destruct (default_config !! "multiagent") as [[|ma]|] eqn:Hma; try done.
    by exists m, e, ma.
  - intros (m & e & ma & Hm & He & Hma).
    destruct (setup_exps_entries _ flow_json create_env gym_name _ _ _ Hm He Hma)
      as (config & -> & _). by eexists.
Qed.

(** X12. [setup_exps] merges into the trainer defaults rather than
    replacing them: every top-level key it does not assign keeps its
    default, and in the nested "model" and "env_config" dictionaries every
    entry other than "fcnet_hiddens", respectively "flow_params" and
    "run", is kept; those three hold [3, 3], the serialised flow
    parameters and "PPO". *)
Theorem setup_exps_keeps_other_settings default_config flow_json create_env gym_name :
  nests_dicts default_config = true →
  ∃ config m e m' e',
    setup_exps default_config flow_json create_env gym_name
      = Some ("PPO", gym_name, config)
    ∧ default_config !! "model" = Some (Dict m)
    ∧ default_config !! "env_config" = Some (Dict e)
    ∧ config !! "model" = Some (Dict m')
    ∧ config !! "env_config" = Some (Dict e')
    ∧ (∀ k, k ∉ written_keys → config !! k = default_config !! k)
    ∧ m' !! "fcnet_hiddens" = Some (Val (VInts [3; 3]))
    ∧ (∀ k, k ≠ "fcnet_hiddens" → m' !! k = m !! k)
    ∧ e' !! "flow_params" = Some (Val (VStr flow_json))
    ∧ e' !! "run" = Some (Val (VStr "PPO"))
    ∧ (∀ k, k ≠ "flow_params" → k ≠ "run" → e' !! k = e !! k).
Proof.
  unfold nests_dicts. intros Hd.
  destruct (default_config !! "model") as [[|m]|] eqn:Hm; try done.
  destruct (default_config !! "env_config") as [[|e]|] eqn:He; try done.
  destruct (default_config !! "multiagent") as [[|ma]|] eqn:Hma; try done.
  destruct (setup_exps_entries _ flow_json create_env gym_name _ _ _ Hm He Hma)
    as (config & Hrun & Hm' & He' & _ & Hframe).
  eexists config, m, e, _, _. split; [done|]. split; [done|]. split; [done|].
  split; [exact Hm'|]. split; [exact He'|]. split; [done|].
  split; [by rewrite lookup_insert_eq|].
  split; [by intros k Hk; rewrite lookup_insert_ne|].
  split; [by rewrite lookup_insert_ne, lookup_insert_eq|].
  split; [by rewrite lookup_insert_eq|].
  intros k Hk1 Hk2. by rewrite !lookup_insert_ne.
Qed.

Lemma setup_exps_keeps_other_settings_witness :
  nests_dicts small_defaults = true
  ∧ ∃ config m e m' e',
      setup_exps small_defaults "{}" (λ _, small_env) "MultiEnv-v0"
        = Some ("PPO", "MultiEnv-v0", config)
      ∧ small_defaults !! "model" = Some (Dict m)
      ∧ small_defaults !! "env_config" = Some (Dict e)
      ∧ config !! "model" = Some (Dict m')
      ∧ config !! "env_config" = Some (Dict e')
      ∧ (∀ k, k ∉ written_keys → config !! k = small_defaults !! k)
      ∧ m' !! "fcnet_hiddens" = Some (Val (VInts [3; 3]))
      ∧ (∀ k, k ≠ "fcnet_hiddens" → m' !! k = m !! k)
      ∧ e' !! "flow_params" = Some (Val (VStr "{}"))
      ∧ e' !! "run" = Some (Val (VStr "PPO"))
      ∧ (∀ k, k ≠ "flow_params" → k ≠ "run" → e' !! k = e !! k).
Proof.
  split; [reflexivity|].
  apply (setup_exps_keeps_other_settings small_defaults "{}" (λ _, small_env)
           "MultiEnv-v0").
  reflexivity.
Defined.

(** X13. The three multi-agent settings of [setup_exps] fit together:
    whatever the agent identifier, the policy the mapping function names
    is one of the policies defined, and it is on the list of policies to
    train. *)
Theorem mapping_lands_on_trained_policy default_config flow_json create_env gym_name :
  nests_dicts default_config = true →
  ∃ config ma P f to_train,
    setup_exps default_config flow_json create_env gym_name
      = Some ("PPO", gym_name, config)
    ∧ config !! "multiagent" = Some (Dict ma)
    ∧ ma !! "policies" = Some (Policies P)
    ∧ ma !! "policy_mapping_fn" = Some (Fn f)
    ∧ ma !! "policies_to_train" = Some (Val (VStrs to_train))
    ∧ ∀ agent_id : string, is_Some (P !! f agent_id) ∧ f agent_id ∈ to_train.
Proof.
  intros Hd.
  destruct (setup_exps_multiagent _ flow_json create_env gym_name Hd)
    as (config & ma & Hrun & _ & Hma).
  eexists config, _, _, POLICY_MAPPING_FN, _. split; [done|]. split; [exact Hma|].
  unfold multiagent_of.
  split; [by simplify_map_eq|]. split; [by simplify_map_eq|].
  split; [by simplify_map_eq|].
  intros agent_id. unfold POLICY_MAPPING_FN.
  destruct (Py.startswith agent_id "cav").
  - split; [rewrite lookup_insert_eq; by eexists | left].
  - split; [rewrite lookup_insert_ne, lookup_insert_eq by done; by eexists|].
    right. left.
Qed.

Lemma mapping_lands_on_trained_policy_witness :
  nests_dicts small_defaults = true
  ∧ ∃ config ma P f to_train,
      setup_exps small_defaults "{}" (λ _, small_env) "MultiEnv-v0"
        = Some ("PPO", "MultiEnv-v0", config)
      ∧ config !! "multiagent" = Some (Dict ma)
      ∧ ma !! "policies" = Some (Policies P)
      ∧ ma !! "policy_mapping_fn" = Some (Fn f)
      ∧ ma !! "policies_to_train" = Some (Val (VStrs to_train))
      ∧ ∀ agent_id : string, is_Some (P !! f agent_id) ∧ f agent_id ∈ to_train.
Proof.
  split; [reflexivity|].
  apply (mapping_lands_on_trained_policy small_defaults "{}" (λ _, small_env)
           "MultiEnv-v0").
  reflexivity.
Defined.

(** X14. The mapping function looks at the first three bytes of the
    identifier and at nothing else: identifiers that agree on them go to
    the same policy, and the empty identifier and those of one or two
    bytes go to "tl". *)
Theorem mapping_reads_three_bytes :
  (∀ a b c rest rest',
     POLICY_MAPPING_FN (String a (String b (String c rest)))
     = POLICY_MAPPING_FN (String a (String b (String c rest'))))
  ∧ POLICY_MAPPING_FN "" = "tl"
  ∧ (∀ a, POLICY_MAPPING_FN (String a "") = "tl")
  ∧ (∀ a b, POLICY_MAPPING_FN (String a (String b "")) = "tl").
Proof.
  unfold POLICY_MAPPING_FN. split; [|split; [done|split]].
  - intros a b c rest rest'. simpl. by repeat case_decide.
  - intros a. simpl. by repeat case_decide.
  - intros a b. simpl. by repeat case_decide.
Qed.

(** X15. On a grid with at least one row, one column and one car entering
    from each side, the subtraction [tot_cars - 2] leaves at least two
    "human" vehicles, so the two "cav" vehicles are never more than half
    of the population. *)
Theorem vehs_human_majority (cars_left cars_right cars_top cars_bot cols rows : Z) :
  1 ≤ cars_left → 1 ≤ cars_right → 1 ≤ cars_top → 1 ≤ cars_bot →
  1 ≤ cols → 1 ≤ rows →
  let tot := tot_cars_of cars_left cars_right cars_top cars_bot cols rows in
  4 ≤ tot
  ∧ count_id "cav" (vehs_of tot) ≤ count_id "human" (vehs_of tot).
Proof.
  intros Hl Hr Ht Hb Hc Hw tot.
  assert (4 ≤ tot) by (unfold tot, tot_cars_of; nia).
  split; [done|]. unfold vehs_of, add, count_id. simpl. lia.
Qed.

Lemma vehs_human_majority_witness :
  4 ≤ tot_cars ∧ count_id "cav" vehs ≤ count_id "human" vehs.
Proof.
  apply (vehs_human_majority num_cars_left num_cars_right num_cars_top
           num_cars_bot n_columns n_rows); vm_compute; discriminate.
Defined.

(** X16. Nothing guards the subtraction: the "human" count is tot_cars - 2
    for every total, hence negative exactly when the total is below two,
    as it is, at -2, when no car enters from any side or the grid has
    neither rows nor columns. *)
Theorem vehs_human_count_unguarded :
  (∀ tot, count_id "human" (vehs_of tot) = tot - 2)
  ∧ (∀ tot, count_id "human" (vehs_of tot) < 0 ↔ tot < 2)
  ∧ (∀ cols rows, count_id "human" (vehs_of (tot_cars_of 0 0 0 0 cols rows)) = -2)
  ∧ (∀ cars_left cars_right cars_top cars_bot,
       count_id "human"
         (vehs_of (tot_cars_of cars_left cars_right cars_top cars_bot 0 0)) = -2).
Proof.
  assert (∀ tot, count_id "human" (vehs_of tot) = tot - 2) as Hcount.
  { intros tot. unfold vehs_of, add, count_id. simpl. lia. }
  split; [done|]. split; [intros tot; rewrite Hcount; lia|].
  split; intros; rewrite Hcount; unfold tot_cars_of; lia.
Qed.

End configurator_extras.
